(** * Greenlight: pagination filters and the optimistic update path

    A shallow embedding of the Go sources
      - internal/data filters  (Filters, sortColumn, sortDirection,
        ValidateFilters, limit, offset),
      - cmd/api/movies.go      (updateMovieHandler, listMoviesHandler),
    together with the collaborators those functions call and whose
    sources are not part of the tree (the validator package, the movie
    model, the metadata computation, the request helpers).

    Go's [int] is a 64-bit two's complement integer: it is a [Z] together
    with an explicit wrap-around.  Go's [map[string]string] is a
    [gmap string string].  A Go slice that may be [nil] is an
    [option (list _)]. *)

From Stdlib Require Import ZArith Lia Ascii String.
From stdpp Require Import base option list strings pretty gmap fin_maps.

Local Open Scope string_scope.
Local Open Scope list_scope.
Local Open Scope Z_scope.

(** ** Go primitives *)

Module golang.

(** Two's complement wrap-around of a 64-bit [int]. *)
Definition int_min : Z := - 2 ^ 63.
Definition int_max : Z := 2 ^ 63 - 1.
Definition int_wrap (z : Z) : Z := (z + 2 ^ 63) mod 2 ^ 64 - 2 ^ 63.

Definition int_sub (a b : Z) : Z := int_wrap (a - b).
Definition int_mul (a b : Z) : Z := int_wrap (a * b).

(** A function either returns or panics with a message. *)
Inductive outcome (A : Type) : Type :=
| Returns (a : A)
| Panics (msg : string).
Arguments Returns {A} a.
Arguments Panics {A} msg.

(** A slice is [nil] or a sequence of elements; [len] of [nil] is 0. *)
Definition slice (A : Type) : Type := option (list A).
Definition len {A} (s : slice A) : Z :=
  match s with
  | None => 0
  | Some l => Z.of_nat (length l)
  end.

(** [strings.HasPrefix(s, prefix)] *)
Fixpoint HasPrefix (s prefix : string) {struct prefix} : bool :=
  match prefix, s with
  | EmptyString, _ => true
  | String _ _, EmptyString => false
  | String c prefix', String d s' =>
      if Ascii.eqb c d then HasPrefix s' prefix' else false
  end.

(** [s[n:]] for [n <= len(s)] *)
Fixpoint string_drop (n : nat) (s : string) : string :=
  match n, s with
  | O, _ => s
  | S _, EmptyString => EmptyString
  | S n', String _ s' => string_drop n' s'
  end.

(** [strings.TrimPrefix(s, prefix)]: [s] without the leading [prefix],
    or [s] itself when it does not start with [prefix]. *)
Definition TrimPrefix (s prefix : string) : string :=
  if HasPrefix s prefix then string_drop (String.length prefix) s else s.

End golang.

(** ** Package validator *)

Module validator.

(** Modelled from the spec: the validator package (Validator, New, Valid,
    AddError, Check, In) is not among the sources.  The spec describes
    the field-error surface as a mapping from a field name to a single
    message; each failing check records a named field error.  An entry
    already present under a key is kept. *)
Record Validator : Type := { Errors : gmap string string }.

Definition New : Validator := {| Errors := ∅ |}.

Definition Valid (v : Validator) : bool :=
  bool_decide (Errors v = ∅).

Definition AddError (v : Validator) (key message : string) : Validator :=
  match Errors v !! key with
  | Some _ => v
  | None => {| Errors := <[key := message]> (Errors v) |}
  end.

Definition Check (v : Validator) (ok : bool) (key message : string)
  : Validator :=
  if ok then v else AddError v key message.

(** Exact-match membership test of a value in a list of permitted values. *)
Fixpoint In (value : string) (list : list string) : bool :=
  match list with
  | [] => false
  | x :: rest => if String.eqb value x then true else In value rest
  end.

End validator.

(** ** Package data: filters *)

Module data.
Import golang.

Record Filters : Type := {
  Page : Z;
  PageSize : Z;
  Sort : string;
  SortSafeList : list string
}.

(** The [for ... range f.SortSafeList] loop of [sortColumn]. *)
Fixpoint sortColumn_range (sort : string) (safe : list string)
  : outcome string :=
  match safe with
  | [] => Panics ("unsafe sort parameter: " +:+ sort)
  | safeValue :: rest =>
      if String.eqb sort safeValue
      then Returns (TrimPrefix sort "-")
      else sortColumn_range sort rest
  end.

Definition sortColumn (f : Filters) : outcome string :=
  sortColumn_range (Sort f) (SortSafeList f).

Definition sortDirection (f : Filters) : string :=
  if HasPrefix (Sort f) "-" then "DESC" else "ASC".

Definition ValidateFilters (v : validator.Validator) (f : Filters)
  : validator.Validator :=
  let v := validator.Check v (0 <? Page f) "page" "must be greater than zero" in
  let v := validator.Check v (Page f <=? 10000000) "page" "must be a maximum of 10 million" in
  let v := validator.Check v (0 <? PageSize f) "page_size" "must be greater than zero" in
  let v := validator.Check v (PageSize f <=? 100) "page_size" "must be a maximum of 100" in
  validator.Check v (validator.In (Sort f) (SortSafeList f)) "sort" "invalid sort value".

Definition limit (f : Filters) : Z := PageSize f.

Definition offset (f : Filters) : Z :=
  int_mul (int_sub (Page f) 1) (PageSize f).

(** *** Pagination metadata *)

Record Metadata : Type := {
  currentPage : Z;
  pageSize : Z;
  firstPage : Z;
  lastPage : Z;
  totalRecords : Z
}.

(** Modelled from the spec: the metadata computation is not among the
    sources.  The spec gives it as: the zero-value record when
    [totalRecords] is 0; otherwise [firstPage = 1], [page] and
    [pageSize] echoed, and [lastPage] by the exact integer ceiling
    division [(totalRecords + pageSize - 1) / pageSize]. *)
Definition ComputeMetadata (totalRecords page pageSize : Z) : Metadata :=
  if totalRecords =? 0
  then {| currentPage := 0; pageSize := 0; firstPage := 0;
          lastPage := 0; totalRecords := 0 |}
  else {| currentPage := page;
          pageSize := pageSize;
          firstPage := 1;
          lastPage := Z.quot (totalRecords + pageSize - 1) pageSize;
          totalRecords := totalRecords |}.

(** *** Movies *)

(** The sentinel errors the handlers test with [errors.Is], and any
    other error value. *)
Inductive error : Type :=
| ErrRecordNotFound
| ErrEditConflict
| ErrOther (msg : string).

#[global] Instance error_eq_dec : EqDecision error.
Proof. solve_decision. Defined.

(** [errors.Is(err, target)] for a sentinel [target]. *)
Definition errors_Is (err target : error) : bool := bool_decide (err = target).

(** A Go result pair [(T, error)]. *)
Inductive result (A : Type) : Type :=
| Ok (a : A)
| Err (err : error).
Arguments Ok {A} a.
Arguments Err {A} err.

(** The fields of [data.Movie] that the handlers read and write.
    [Year] and [Runtime] are [int32], [ID] is [int64], [CreatedAt] a
    time stamp. *)
Record Movie : Type := {
  ID : Z;
  CreatedAt : Z;
  Title : string;
  Year : Z;
  Runtime : Z;
  Genres : slice string;
  Version : Z
}.

Definition is_upper (c : ascii) : bool :=
  let n := Ascii.N_of_ascii c in ((65 <=? n) && (n <=? 90))%N.

Fixpoint is_lowercase (s : string) : bool :=
  match s with
  | EmptyString => true
  | String c s' => negb (is_upper c) && is_lowercase s'
  end.

Definition elems {A} (s : slice A) : list A := default [] s.

(** Modelled from the spec: [ValidateMovie] is not among the sources.
    The spec lists the domain rules: title non-empty and at most 500
    bytes, year between 1888 and the current year inclusive, runtime
    positive, genres a non-empty set of unique lowercase strings with at
    most 5 entries; failures are reported under the field names title,
    year, runtime and genres. *)
Definition ValidateMovie (currentYear : Z) (v : validator.Validator)
    (movie : Movie) : validator.Validator :=
  let v := validator.Check v (negb (String.eqb (Title movie) ""))
             "title" "must be provided" in
  let v := validator.Check v (Z.of_nat (String.length (Title movie)) <=? 500)
             "title" "must not be more than 500 bytes long" in
  let v := validator.Check v (1888 <=? Year movie)
             "year" "must be greater than or equal to 1888" in
  let v := validator.Check v (Year movie <=? currentYear)
             "year" "must not be in the future" in
  let v := validator.Check v (0 <? Runtime movie)
             "runtime" "must be a positive integer" in
  let v := validator.Check v (1 <=? len (Genres movie))
             "genres" "must contain at least 1 genre" in
  let v := validator.Check v (len (Genres movie) <=? 5)
             "genres" "must not contain more than 5 genres" in
  let v := validator.Check v (bool_decide (NoDup (elems (Genres movie))))
             "genres" "must not contain duplicate values" in
  validator.Check v (forallb is_lowercase (elems (Genres movie)))
             "genres" "must be lowercase".

(** *** The movie store *)

(** Modelled from the spec: the movie model ([Get], [Update]) is not
    among the sources.  The spec's contract: [Get(id)] yields the
    record or not-found; [Update] persists the submitted record and
    increments its version by 1 iff the submitted version equals the
    stored one, and otherwise affects no row and signals an edit
    conflict.  The spec does not say whether [Update] also writes the
    new version back into the caller's record (the handler passes a
    pointer); [writeback] selects either reading. *)
Section MovieModel.
Variable writeback : bool.

Definition Get (id : Z) (db : gmap Z Movie) : result Movie :=
  match db !! id with
  | Some movie => Ok movie
  | None => Err ErrRecordNotFound
  end.

Definition bump (movie : Movie) : Movie :=
  {| ID := ID movie; CreatedAt := CreatedAt movie; Title := Title movie;
     Year := Year movie; Runtime := Runtime movie; Genres := Genres movie;
     Version := Version movie + 1 |}.

Definition Update (movie : Movie) (db : gmap Z Movie)
  : option error * Movie * gmap Z Movie :=
  match db !! ID movie with
  | Some stored =>
      if Version stored =? Version movie
      then (None,
            if writeback then bump movie else movie,
            <[ID movie := bump movie]> db)
      else (Some ErrEditConflict, movie, db)
  | None => (Some ErrEditConflict, movie, db)
  end.
End MovieModel.

End data.

(** ** Package main (cmd/api): the movie handlers *)

Module input.
(** The anonymous [input] struct of [updateMovieHandler]: pointer
    fields are [nil] when the JSON body has no such key. *)
Record t : Type := {
  Title : option string;
  Year : option Z;
  Runtime : option Z;
  Genres : golang.slice string
}.
End input.

Module api.
Import golang data.

Inductive envelope : Type :=
| envelope_movie (movie : Movie)
| envelope_movies (movies : list Movie) (metadata : Metadata).

(** What a handler sends: one constructor per response helper, and
    [JSON] for a body written by [writeJSON]. *)
Inductive response : Type :=
| notFoundResponse
| badRequestResponse (err : error)
| failedValidationResponse (errors : gmap string string)
| editConflictResponse
| serverErrorResponse (err : error)
| JSON (status : Z) (body : envelope).

(** Modelled from the spec: the response helpers are not among the
    sources; the spec's error table maps not-found to 404, edit conflict
    to 409, field errors to 422 and any other failure to 500. *)
Definition statusCode (r : response) : Z :=
  match r with
  | notFoundResponse => 404
  | badRequestResponse _ => 400
  | failedValidationResponse _ => 422
  | editConflictResponse => 409
  | serverErrorResponse _ => 500
  | JSON status _ => status
  end.

(** [readIDParam] and [readJSON] are not among the sources: a request is
    represented by what the two helpers return on it. *)
Record Request : Type := {
  readIDParam : result Z;
  readJSON : result input.t
}.

(** [url.Values] and its [Get]: the first value under a key, or the
    empty string. *)
Definition Values_Get (qs : gmap string (list string)) (key : string)
  : string :=
  match qs !! key with
  | Some (s :: _) => s
  | _ => ""
  end.

(** [strings.Split(s, sep)] for a one-byte separator. *)
Fixpoint Split (s : string) (sep : ascii) : list string :=
  match s with
  | EmptyString => [""]
  | String c s' =>
      if Ascii.eqb c sep then "" :: Split s' sep
      else match Split s' sep with
           | x :: xs => String c x :: xs
           | [] => [String c ""]
           end
  end.

(** Modelled from the spec: [readString], [readCSV] and [readInt] are
    not among the sources.  The list handler documents them: each falls
    back to the given default when the client does not provide the key;
    [readInt] takes the validator to report a value that is not an
    integer. *)
Definition readString (qs : gmap string (list string))
    (key defaultValue : string) : string :=
  let s := Values_Get qs key in
  if String.eqb s "" then defaultValue else s.

Definition readCSV (qs : gmap string (list string)) (key : string)
    (defaultValue : slice string) : slice string :=
  let csv := Values_Get qs key in
  if String.eqb csv "" then defaultValue else Some (Split csv ",")%char.

Definition readInt (Atoi : string -> option Z)
    (qs : gmap string (list string)) (key : string) (defaultValue : Z)
    (v : validator.Validator) : Z * validator.Validator :=
  let s := Values_Get qs key in
  if String.eqb s "" then (defaultValue, v)
  else match Atoi s with
       | Some i => (i, v)
       | None => (defaultValue, validator.AddError v key "must be an integer value")
       end.

(** The calls a handler makes on [app.models.Movies], in order. *)
Inductive call : Type :=
| CallGet (id : Z)
| CallUpdate (movie : Movie)
| CallGetAll (title : string) (genres : slice string) (filters : Filters).

Definition is_Update (c : call) : bool :=
  match c with CallUpdate _ => true | _ => false end.

Section handlers.
(** The database behind the movie model. *)
Context {Store : Type}.

(** What a handler runs against: the database and the log of store
    calls made so far (oldest first). *)
Record world : Type := { db : Store; calls : list call }.

Definition logged (c : call) (w : world) (db' : Store) : world :=
  {| db := db'; calls := calls w ++ [c] |}.

(** A handler step either goes on with a value or has sent a response
    and returned. *)
Definition handler (A : Type) : Type := world -> (response + A) * world.

#[local] Instance handler_ret : MRet handler :=
  fun A a w => (inr a, w).
#[local] Instance handler_bind : MBind handler :=
  fun A B k m w =>
    match m w with
    | (inl r, w') => (inl r, w')
    | (inr a, w') => k a w'
    end.

Definition respond {A} (r : response) : handler A := fun w => (inl r, w).

(** A whole handler always ends by responding. *)
Definition run (h : handler Empty_set) (w : world) : response * world :=
  match h w with
  | (inl r, w') => (r, w')
  | (inr e, _) => match e with end
  end.

(** The collaborators: the movie model, the domain validation (which
    reads the clock), the JSON writer and [strconv.Atoi]. *)
Variable Movies_Get : Z -> Store -> result Movie.
Variable Movies_Update : Movie -> Store -> option error * Movie * Store.
Variable Movies_GetAll :
  string -> slice string -> Filters -> Store -> result (list Movie * Metadata).
Variable ValidateMovie : validator.Validator -> Movie -> validator.Validator.
Variable writeJSON : Z -> envelope -> option error.
Variable Atoi : string -> option Z.

Definition call_Get (id : Z) : handler (result Movie) :=
  fun w => (inr (Movies_Get id (db w)), logged (CallGet id) w (db w)).

Definition call_Update (movie : Movie) : handler (option error * Movie) :=
  fun w =>
    let '(err, movie', db') := Movies_Update movie (db w) in
    (inr (err, movie'), logged (CallUpdate movie) w db').

Definition call_GetAll (title : string) (genres : slice string)
    (filters : Filters) : handler (result (list Movie * Metadata)) :=
  fun w => (inr (Movies_GetAll title genres filters (db w)),
            logged (CallGetAll title genres filters) w (db w)).

Definition send (status : Z) (body : envelope) : handler Empty_set :=
  match writeJSON status body with
  | Some err => respond (serverErrorResponse err)
  | None => respond (JSON status body)
  end.

(** *** updateMovieHandler *)

Definition set_Title (x : string) (m : Movie) : Movie :=
  {| ID := ID m; CreatedAt := CreatedAt m; Title := x; Year := Year m;
     Runtime := Runtime m; Genres := Genres m; Version := Version m |}.
Definition set_Year (x : Z) (m : Movie) : Movie :=
  {| ID := ID m; CreatedAt := CreatedAt m; Title := Title m; Year := x;
     Runtime := Runtime m; Genres := Genres m; Version := Version m |}.
Definition set_Runtime (x : Z) (m : Movie) : Movie :=
  {| ID := ID m; CreatedAt := CreatedAt m; Title := Title m; Year := Year m;
     Runtime := x; Genres := Genres m; Version := Version m |}.
Definition set_Genres (x : slice string) (m : Movie) : Movie :=
  {| ID := ID m; CreatedAt := CreatedAt m; Title := Title m; Year := Year m;
     Runtime := Runtime m; Genres := x; Version := Version m |}.

(** The four [if input.X != nil { movie.X = ... }] statements. *)
Definition merge (i : input.t) (movie : Movie) : Movie :=
  let movie := match input.Title i with
               | Some x => set_Title x movie | None => movie end in
  let movie := match input.Year i with
               | Some x => set_Year x movie | None => movie end in
  let movie := match input.Runtime i with
               | Some x => set_Runtime x movie | None => movie end in
  match input.Genres i with
  | Some x => set_Genres (Some x) movie
  | None => movie
  end.

(** From the start of the handler to the validation of the merged
    record. *)
Definition prepare (r : Request) : handler Movie :=
  id ← match readIDParam r with
       | Ok id => mret id
       | Err _ => respond notFoundResponse
       end;
  got ← call_Get id;
  movie ← match got with
          | Ok movie => mret movie
          | Err err =>
              if errors_Is err ErrRecordNotFound
              then respond notFoundResponse
              else respond (serverErrorResponse err)
          end;
  i ← match readJSON r with
      | Ok i => mret i
      | Err err => respond (badRequestResponse err)
      end;
  let movie := merge i movie in
  let v := ValidateMovie validator.New movie in
  if negb (validator.Valid v)
  then respond (failedValidationResponse (validator.Errors v))
  else mret movie.

(** From the first [Update] call to the end of the handler. *)
Definition commit (movie : Movie) : handler Empty_set :=
  '(err, movie) ← call_Update movie;
  _ ← match err with
      | Some err => respond (serverErrorResponse err)
      | None => mret tt
      end;
  '(err, movie) ← call_Update movie;
  _ ← match err with
      | Some err =>
          if errors_Is err ErrEditConflict
          then respond editConflictResponse
          else respond (serverErrorResponse err)
      | None => mret tt
      end;
  send 200 (envelope_movie movie).

Definition updateMovieHandler (r : Request) : handler Empty_set :=
  movie ← prepare r; commit movie.

(** Two requests served concurrently, scheduled so that both fetch
    before either commits. *)
Definition finish (p : response + Movie) (w : world) : response * world :=
  match p with
  | inl r => (r, w)
  | inr movie => run (commit movie) w
  end.

Definition both_fetch_then_commit (r1 r2 : Request) (w : world)
  : response * response * world :=
  let '(p1, w) := prepare r1 w in
  let '(p2, w) := prepare r2 w in
  let '(resp1, w) := finish p1 w in
  let '(resp2, w) := finish p2 w in
  (resp1, resp2, w).

(** *** listMoviesHandler *)

Definition SortSafeList_movies : list string :=
  ["id"; "title"; "year"; "runtime"; "-id"; "-title"; "-year"; "-runtime"].

(** The [input] struct of the list handler once the query string has
    been read, with the validator the reads went through. *)
Definition listMoviesInput (qs : gmap string (list string))
  : string * slice string * Filters * validator.Validator :=
  let v := validator.New in
  let title := readString qs "title" "" in
  let genres := readCSV qs "genres" (Some []) in
  let '(page, v) := readInt Atoi qs "page" 1 v in
  let '(page_size, v) := readInt Atoi qs "page_size" 20 v in
  let sort := readString qs "sort" "id" in
  (title, genres,
   {| Page := page; PageSize := page_size; Sort := sort;
      SortSafeList := SortSafeList_movies |},
   v).

Definition listMoviesHandler (qs : gmap string (list string))
  : handler Empty_set :=
  let '(title, genres, filters, v) := listMoviesInput qs in
  let v := ValidateFilters v filters in
  if negb (validator.Valid v)
  then respond (failedValidationResponse (validator.Errors v))
  else
    got ← call_GetAll title genres filters;
    match got with
    | Err err => respond (serverErrorResponse err)
    | Ok (movies, metadata) => send 200 (envelope_movies movies metadata)
    end.

End handlers.

End api.

(** ** Package jsonlog *)

Module jsonlog.

(** [Level] is an [int8]; the four constants are successive values. *)
Definition LevelInfo : Z := 0.
Definition LevelError : Z := 1.
Definition LevelFatal : Z := 2.
Definition LevelOff : Z := 3.

Definition Level_String (l : Z) : string :=
  if l =? LevelInfo then "INFO"
  else if l =? LevelError then "ERROR"
  else if l =? LevelFatal then "FATAL"
  else "".

(** The logger: what has been written to its output so far and the
    minimum level.  The mutex has no counterpart here. *)
Record Logger : Type := { out : list string; minLevel : Z }.

Definition New (out : list string) (minLevel : Z) : Logger :=
  {| out := out; minLevel := minLevel |}.

(** [print] returns [(0, nil)] below the minimum level and [(1, nil)]
    otherwise; it writes nothing to [out]. *)
Definition print (l : Logger) (level : Z) (message : string)
    (properties : gmap string string) : Z * option string :=
  if level <? minLevel l then (0, None) else (1, None).

(** The three helpers: the logger after the call, and the exit status when
    the call ends the process. *)
Definition PrintInfo (l : Logger) (message : string)
    (properties : gmap string string) : Logger * option Z :=
  let _ := print l LevelInfo message properties in (l, None).

Definition PrintError (l : Logger) (err : string)
    (properties : gmap string string) : Logger * option Z :=
  let _ := print l LevelError err properties in (l, None).

Definition PrintFatal (l : Logger) (err : string)
    (properties : gmap string string) : Logger * option Z :=
  let _ := print l LevelFatal err properties in (l, Some 1).

End jsonlog.

(** ** Package data: the runtime of a movie *)

Module runtime.

Definition dquote : ascii := "034"%char.
Definition backslash : ascii := "092"%char.

(** [strconv.Quote] on the bytes it is modelled for: a double quote and a
    backslash are escaped with a backslash, any other printable ASCII byte
    stands for itself.  Control bytes and bytes above 0x7e (where the
    result depends on the UTF-8 decoding) are outside the model: [None]. *)
Definition Quote_byte (c : ascii) : option string :=
  if Ascii.eqb c dquote then Some (String backslash (String dquote ""))
  else if Ascii.eqb c backslash then Some (String backslash (String backslash ""))
  else if ((32 <=? Ascii.N_of_ascii c) && (Ascii.N_of_ascii c <=? 126))%N
       then Some (String c "")
       else None.

Fixpoint Quote_bytes (s : string) : option string :=
  match s with
  | EmptyString => Some ""
  | String c s' =>
      match Quote_byte c, Quote_bytes s' with
      | Some a, Some b => Some (a +:+ b)
      | _, _ => None
      end
  end.

Definition Quote (s : string) : option string :=
  match Quote_bytes s with
  | Some body => Some (String dquote (body +:+ String dquote ""))
  | None => None
  end.

(** [fmt.Sprintf("%d mins", r)]: the decimal digits of [r], with a leading
    '-' when negative. *)
Definition Sprintf_mins (r : Z) : string := pretty r +:+ " mins".

(** [Runtime.MarshalJSON]: the error it returns is always [nil]; the result
    is the bytes of the quoted string. *)
Definition MarshalJSON (r : Z) : option string :=
  let jsonValue := Sprintf_mins r in
  Quote jsonValue.

End runtime.

(** ** Package main (cmd/api): show, create and delete *)

Module create_input.
(** The [input] struct of [createMovieHandler]. *)
Record t : Type := {
  Title : string;
  Year : Z;
  Runtime : Z;
  Genres : golang.slice string
}.
End create_input.

Module rest.
Import golang data api.

(** The envelopes these handlers write. *)
Inductive envelope : Type :=
| movie_envelope (movie : Movie)
| message_envelope (message : string).

(** What the handler sends: the plain 404 of [http.NotFound], one of the
    response helpers, or a body written by [writeJSON] with its status and
    headers. *)
Inductive reply : Type :=
| http_NotFound
| helper (r : response)
| wrote (status : Z) (body : envelope) (headers : gmap string (list string)).

Definition reply_status (r : reply) : Z :=
  match r with
  | http_NotFound => 404
  | helper r => statusCode r
  | wrote status _ _ => status
  end.

(** The calls made on [app.models.Movies]. *)
Inductive op : Type :=
| OpGet (id : Z)
| OpInsert (movie : Movie)
| OpDelete (id : Z).

Section handlers.
Context {Store : Type}.

Variable Movies_Get : Z -> Store -> result Movie.
Variable Movies_Insert : Movie -> Store -> option error * Movie * Store.
Variable Movies_Delete : Z -> Store -> option error * Store.
Variable ValidateMovie : validator.Validator -> Movie -> validator.Validator.
Variable writeJSON :
  Z -> envelope -> gmap string (list string) -> option error.

Definition send (status : Z) (body : envelope)
    (headers : gmap string (list string)) : reply :=
  match writeJSON status body headers with
  | Some err => helper (serverErrorResponse err)
  | None => wrote status body headers
  end.

(** [showMovieHandler]; the argument is what [readIDParam] returns on the
    request. *)
Definition showMovieHandler (readIDParam : result Z) (st : Store)
  : reply * Store * list op :=
  match readIDParam with
  | Err _ => (http_NotFound, st, [])
  | Ok id =>
      if id <? 1 then (http_NotFound, st, [])
      else
        match Movies_Get id st with
        | Err err =>
            (helper (if errors_Is err ErrRecordNotFound
                     then notFoundResponse
                     else serverErrorResponse err),
             st, [OpGet id])
        | Ok movie => (send 200 (movie_envelope movie) ∅, st, [OpGet id])
        end
  end.

(** The record [createMovieHandler] builds from its input: the fields the
    struct literal does not name have their zero value. *)
Definition new_movie (i : create_input.t) : Movie :=
  {| ID := 0; CreatedAt := 0;
     Title := create_input.Title i; Year := create_input.Year i;
     Runtime := create_input.Runtime i; Genres := create_input.Genres i;
     Version := 0 |}.

(** [createMovieHandler]; the argument is what [readJSON] decodes from the
    body. *)
Definition createMovieHandler (readJSON : result create_input.t) (st : Store)
  : reply * Store * list op :=
  match readJSON with
  | Err err => (helper (badRequestResponse err), st, [])
  | Ok i =>
      let movie := new_movie i in
      let v := ValidateMovie validator.New movie in
      if negb (validator.Valid v)
      then (helper (failedValidationResponse (validator.Errors v)), st, [])
      else
        let '(err, inserted, st') := Movies_Insert movie st in
        match err with
        | Some err => (helper (serverErrorResponse err), st', [OpInsert movie])
        | None =>
            let headers : gmap string (list string) :=
              <["Location" := ["/v1/movies/" +:+ pretty (ID inserted)]]> ∅ in
            (send 201 (movie_envelope inserted) headers, st', [OpInsert movie])
        end
  end.

(** [deleteMovieHandler] *)
Definition deleteMovieHandler (readIDParam : result Z) (st : Store)
  : reply * Store * list op :=
  match readIDParam with
  | Err _ => (helper notFoundResponse, st, [])
  | Ok id =>
      let '(err, st') := Movies_Delete id st in
      match err with
      | Some err =>
          (helper (if errors_Is err ErrRecordNotFound
                   then notFoundResponse
                   else serverErrorResponse err),
           st', [OpDelete id])
      | None =>
          (send 200 (message_envelope "movie successfully deleted") ∅,
           st', [OpDelete id])
      end
  end.

End handlers.

End rest.

(** ** A catalogue with one movie *)

Module scenario.
Import golang data api.

Definition casablanca : Movie :=
  {| ID := 1; CreatedAt := 0; Title := "Casablanca"; Year := 1942;
     Runtime := 102; Genres := Some ["drama"; "romance"; "war"];
     Version := 3 |}.

Definition catalogue : gmap Z Movie := {[ 1 := casablanca ]}.

Definition start : world := {| db := catalogue; calls := [] |}.

(** A PATCH of movie 1 with the given body. *)
Definition patch (i : input.t) : Request :=
  {| readIDParam := Ok 1; readJSON := Ok i |}.

Definition retitle (title : string) : input.t :=
  {| input.Title := Some title; input.Year := None;
     input.Runtime := None; input.Genres := None |}.

Definition only_genres (genres : slice string) : input.t :=
  {| input.Title := None; input.Year := None;
     input.Runtime := None; input.Genres := genres |}.

(** The JSON writer when encoding succeeds. *)
Definition writeJSON_ok (status : Z) (body : envelope) : option error := None.

(** The handler over the modelled store, with the clock in 2024. *)
Definition serve (writeback : bool) (r : Request) (w : world)
  : response * world :=
  run (updateMovieHandler Get (Update writeback) (ValidateMovie 2024)
         writeJSON_ok r) w.

Definition serve_both (writeback : bool) (r1 r2 : Request) (w : world)
  : response * response * world :=
  both_fetch_then_commit Get (Update writeback) (ValidateMovie 2024)
    writeJSON_ok r1 r2 w.

End scenario.

(** * Properties *)

(** ** Go primitives *)

Module golang_facts.
Import golang.

Lemma int_wrap_small (z : Z) : int_min <= z <= int_max -> int_wrap z = z.
Proof.
  unfold int_min, int_max, int_wrap. intros Hz.
  rewrite Z.mod_small; lia.
Qed.

Lemma HasPrefix_dash (s : string) :
  HasPrefix s "-" = true <-> exists rest, s = String "-" rest.
Proof.
  split.
  - destruct s as [|c s]; cbn [HasPrefix]; [discriminate|].
    destruct (Ascii.eqb_spec "-"%char c) as [<-|]; [eauto|discriminate].
  - intros [rest ->]. reflexivity.
Qed.

Lemma TrimPrefix_dash_cons (rest : string) :
  TrimPrefix (String "-" rest) "-" = rest.
Proof. reflexivity. Qed.

Lemma TrimPrefix_no_dash (s : string) :
  HasPrefix s "-" = false -> TrimPrefix s "-" = s.
Proof. unfold TrimPrefix. now intros ->. Qed.

End golang_facts.

(** ** The validator *)

Module validator_facts.
Import validator.

Lemma In_spec (value : string) (l : list string) :
  In value l = true <-> value ∈ l.
Proof.
  induction l as [|x l IH]; simpl.
  - split; [discriminate | intros H; inversion H].
  - destruct (String.eqb_spec value x) as [->|Hne].
    + split; [intros _; left | reflexivity].
    + rewrite IH. split; [now right|].
      intros H. apply elem_of_cons in H as [?|?]; [contradiction|assumption].
Qed.

Lemma In_false (value : string) (l : list string) :
  In value l = false <-> value ∉ l.
Proof.
  rewrite <- In_spec. destruct (In value l); split; congruence.
Qed.

(** What one [Check] leaves under a key: an earlier entry stays, a
    failing check on that very key adds its message. *)
Lemma lookup_Check (v : Validator) (ok : bool) (key message k : string) :
  Errors (Check v ok key message) !! k =
    match Errors v !! k with
    | Some m => Some m
    | None => if ok then None
              else if decide (key = k) then Some message else None
    end.
Proof.
  unfold Check, AddError. destruct ok.
  - now destruct (Errors v !! k).
  - destruct (Errors v !! key) eqn:Hkey; simpl.
    + destruct (Errors v !! k) eqn:Hk; [reflexivity|].
      destruct (decide (key = k)); [congruence | reflexivity].
    + destruct (decide (key = k)) as [<-|Hne].
      * now rewrite lookup_insert_eq, Hkey.
      * rewrite lookup_insert_ne by assumption. now destruct (Errors v !! k).
Qed.

Lemma Valid_spec (v : Validator) : Valid v = true <-> Errors v = ∅.
Proof. unfold Valid. apply bool_decide_eq_true. Qed.

Lemma Valid_lookup (v : Validator) :
  Valid v = true <-> forall k, Errors v !! k = None.
Proof.
  rewrite Valid_spec. split.
  - intros -> k. apply lookup_empty.
  - intros H. apply map_empty. exact H.
Qed.

(** A check never repairs a validator: if it is valid afterwards, it was
    valid before and the check passed. *)
Lemma Valid_Check (v : Validator) (ok : bool) (key message : string) :
  Valid (Check v ok key message) = true <-> Valid v = true /\ ok = true.
Proof.
  rewrite !Valid_lookup. split.
  - intros H. split.
    + intros k. specialize (H k). rewrite lookup_Check in H.
      now destruct (Errors v !! k).
    + specialize (H key). rewrite lookup_Check in H.
      destruct (Errors v !! key); [discriminate|].
      destruct ok; [reflexivity|].
      now rewrite decide_True in H.
  - intros [H ->] k. rewrite lookup_Check. now rewrite H.
Qed.

Lemma invalid_lookup (v : Validator) :
  Valid v = false <-> exists k m, Errors v !! k = Some m.
Proof.
  split.
  - intros H.
    destruct (map_choose_or_empty (Errors v)) as [(k & m & Hk)|He].
    + eauto.
    + apply Valid_spec in He. congruence.
  - intros (k & m & Hk). destruct (Valid v) eqn:E; [|reflexivity].
    apply Valid_lookup with (k := k) in E. congruence.
Qed.

End validator_facts.

(** ** Filters: bounds, sort resolution, validation *)

Module filters_facts.
Import golang data golang_facts validator_facts.

Lemma sortColumn_range_safe (sort : string) (safe : list string) :
  sort ∈ safe -> sortColumn_range sort safe = Returns (TrimPrefix sort "-").
Proof.
  induction safe as [|x safe IH]; intros Hin.
  - inversion Hin.
  - cbn [sortColumn_range].
    destruct (String.eqb_spec sort x) as [_|Hne]; [reflexivity|].
    apply IH. apply elem_of_cons in Hin as [?|?]; [contradiction|assumption].
Qed.

Lemma sortColumn_range_unsafe (sort : string) (safe : list string) :
  sort ∉ safe ->
  sortColumn_range sort safe = Panics ("unsafe sort parameter: " +:+ sort).
Proof.
  induction safe as [|x safe IH]; intros Hnin; [reflexivity|].
  cbn [sortColumn_range].
  destruct (String.eqb_spec sort x) as [->|Hne].
  - exfalso. apply Hnin. left.
  - apply IH. intros Hin. apply Hnin. now right.
Qed.

(** The validator after [ValidateFilters], key by key, for any validator
    the checks start from. *)
Lemma lookup_ValidateFilters (v : validator.Validator) (f : Filters) (k : string) :
  validator.Errors (ValidateFilters v f) !! k =
    match validator.Errors v !! k with
    | Some m => Some m
    | None =>
        if decide (k = "page") then
          if Page f <=? 0 then Some "must be greater than zero"
          else if 10000000 <? Page f then Some "must be a maximum of 10 million"
          else None
        else if decide (k = "page_size") then
          if PageSize f <=? 0 then Some "must be greater than zero"
          else if 100 <? PageSize f then Some "must be a maximum of 100"
          else None
        else if decide (k = "sort") then
          if validator.In (Sort f) (SortSafeList f) then None
          else Some "invalid sort value"
        else None
    end.
Proof.
  unfold ValidateFilters. rewrite !lookup_Check.
  destruct (validator.Errors v !! k); [reflexivity|].
  repeat case_decide; subst; try congruence;
    repeat match goal with
           | |- context [?a <? ?b] => destruct (Z.ltb_spec a b)
           | |- context [?a <=? ?b] => destruct (Z.leb_spec a b)
           | |- context [validator.In ?a ?b] => destruct (validator.In a b)
           end; try reflexivity; try lia.
Qed.

Lemma Valid_ValidateFilters (v : validator.Validator) (f : Filters) :
  validator.Valid (ValidateFilters v f) = true <->
  validator.Valid v = true /\ 0 < Page f <= 10000000 /\
  0 < PageSize f <= 100 /\ Sort f ∈ SortSafeList f.
Proof.
  unfold ValidateFilters. rewrite !Valid_Check, In_spec.
  rewrite !Z.ltb_lt, !Z.leb_le. tauto.
Qed.

(** C3: for every page in [1, 10_000_000] and page size in [1, 100],
    [limit] is the page size (so within [1, 100]) and [offset] is
    [(page - 1) * pageSize], which is not negative: the 64-bit
    arithmetic of [offset] does not wrap in that range. *)
Theorem limit_offset_in_range (f : Filters) :
  1 <= Page f <= 10000000 ->
  1 <= PageSize f <= 100 ->
  limit f = PageSize f /\ 1 <= limit f <= 100 /\
  offset f = (Page f - 1) * PageSize f /\ 0 <= offset f.
Proof.
  intros Hp Hs. unfold limit, offset, int_mul, int_sub.
  rewrite (int_wrap_small (Page f - 1)) by (unfold int_min, int_max; lia).
  rewrite int_wrap_small by (unfold int_min, int_max; nia).
  repeat split; try lia. nia.
Qed.

Lemma limit_offset_in_range_witness :
  let f := {| Page := 3; PageSize := 20; Sort := "id"; SortSafeList := ["id"] |} in
  limit f = 20 /\ 1 <= limit f <= 100 /\ offset f = 40 /\ 0 <= offset f.
Proof.
  intros f. apply (limit_offset_in_range f); simpl; lia.
Defined.

(** C5: for a sort key on the safelist, either the key is a '-' followed
    by some text, and then [sortColumn] returns that text (one '-' is
    stripped, no more) and [sortDirection] is "DESC"; or the key does not
    start with '-', and then [sortColumn] returns the key itself and
    [sortDirection] is "ASC".  In particular "-year" resolves to
    ("year", "DESC") and "title" to ("title", "ASC"). *)
Theorem sort_resolution (f : Filters) :
  Sort f ∈ SortSafeList f ->
  ((exists rest, Sort f = String "-" rest /\
                 sortColumn f = Returns rest /\ sortDirection f = "DESC") \/
   ((forall rest, Sort f <> String "-" rest) /\
    sortColumn f = Returns (Sort f) /\ sortDirection f = "ASC")) /\
  (forall rest, Sort f = String "-" rest ->
     sortColumn f = Returns rest /\ sortDirection f = "DESC") /\
  (Sort f = "-year" ->
     sortColumn f = Returns "year" /\ sortDirection f = "DESC") /\
  (Sort f = "title" ->
     sortColumn f = Returns "title" /\ sortDirection f = "ASC").
Proof.
  intros Hin. unfold sortColumn, sortDirection.
  rewrite (sortColumn_range_safe _ _ Hin).
  split; [|split; [|split]].
  - destruct (HasPrefix (Sort f) "-") eqn:Hpre.
    + apply HasPrefix_dash in Hpre as [rest Hrest]. left.
      exists rest. rewrite Hrest, TrimPrefix_dash_cons. auto.
    + right. rewrite (TrimPrefix_no_dash _ Hpre).
      split; [|auto]. intros rest Hrest.
      assert (HasPrefix (Sort f) "-" = true) by (apply HasPrefix_dash; eauto).
      congruence.
  - intros rest ->. split; reflexivity.
  - intros ->. split; reflexivity.
  - intros ->. split; reflexivity.
Qed.

Lemma sort_resolution_witness :
  let f := {| Page := 1; PageSize := 20; Sort := "-year";
              SortSafeList := ["id"; "year"; "-id"; "-year"] |} in
  let g := {| Page := 1; PageSize := 20; Sort := "title";
              SortSafeList := ["id"; "title"; "-id"; "-title"] |} in
  Sort f ∈ SortSafeList f /\ Sort g ∈ SortSafeList g /\
  (sortColumn f = Returns "year" /\ sortDirection f = "DESC") /\
  (sortColumn g = Returns "title" /\ sortDirection g = "ASC").
Proof.
  intros f g.
  assert (Hf : Sort f ∈ SortSafeList f) by (apply In_spec; reflexivity).
  assert (Hg : Sort g ∈ SortSafeList g) by (apply In_spec; reflexivity).
  split; [exact Hf|]. split; [exact Hg|]. split.
  - apply (proj1 (proj2 (proj2 (sort_resolution f Hf)))). reflexivity.
  - apply (proj2 (proj2 (proj2 (sort_resolution g Hg)))). reflexivity.
Defined.

(** The two resolutions the specification lists, and a key with two
    leading dashes: only one is stripped. *)
Example sort_resolution_year_desc (page size : Z) :
  let f := {| Page := page; PageSize := size; Sort := "-year";
              SortSafeList := ["id"; "title"; "year"; "runtime";
                               "-id"; "-title"; "-year"; "-runtime"] |} in
  sortColumn f = Returns "year" /\ sortDirection f = "DESC".
Proof. split; reflexivity. Qed.

Example sort_resolution_title_asc (page size : Z) :
  let f := {| Page := page; PageSize := size; Sort := "title";
              SortSafeList := ["id"; "title"; "year"; "runtime";
                               "-id"; "-title"; "-year"; "-runtime"] |} in
  sortColumn f = Returns "title" /\ sortDirection f = "ASC".
Proof. split; reflexivity. Qed.

Example sort_resolution_strips_one_dash :
  let f := {| Page := 1; PageSize := 20; Sort := "--year";
              SortSafeList := ["--year"] |} in
  sortColumn f = Returns "-year" /\ sortDirection f = "DESC".
Proof. split; reflexivity. Qed.

(** C6: [sortColumn] panics whenever the sort key is not on the
    safelist; once [ValidateFilters] has passed (from whatever validator
    it started), the key is on the safelist and [sortColumn] returns. *)
Theorem sortColumn_panics_only_when_unsafe (v : validator.Validator) (f : Filters) :
  (Sort f ∉ SortSafeList f ->
   sortColumn f = Panics ("unsafe sort parameter: " +:+ Sort f)) /\
  (validator.Valid (ValidateFilters v f) = true ->
   Sort f ∈ SortSafeList f /\ exists column, sortColumn f = Returns column).
Proof.
  split.
  - apply sortColumn_range_unsafe.
  - intros Hv. apply Valid_ValidateFilters in Hv as (_ & _ & _ & Hin).
    split; [assumption|]. eexists. apply sortColumn_range_safe, Hin.
Qed.

Lemma sortColumn_panics_only_when_unsafe_witness :
  let bad := {| Page := 1; PageSize := 20; Sort := "budget";
                SortSafeList := ["id"; "-id"] |} in
  let good := {| Page := 1; PageSize := 20; Sort := "-id";
                 SortSafeList := ["id"; "-id"] |} in
  sortColumn bad = Panics "unsafe sort parameter: budget" /\
  (Sort good ∈ SortSafeList good /\ exists column, sortColumn good = Returns column).
Proof.
  intros bad good. split.
  - apply (proj1 (sortColumn_panics_only_when_unsafe validator.New bad)).
    apply In_false. reflexivity.
  - apply (proj2 (sortColumn_panics_only_when_unsafe validator.New good)).
    apply Valid_ValidateFilters. repeat split; simpl; try lia.
    apply In_spec. reflexivity.
Defined.


(** The quotient used for the last page brackets the total. *)
Lemma ceiling_quot (total size : Z) :
  1 <= total -> 1 <= size ->
  (Z.quot (total + size - 1) size - 1) * size < total
    <= Z.quot (total + size - 1) size * size.
Proof.
  intros Ht Hs. rewrite Z.quot_div_nonneg by lia.
  pose proof (Z.div_mod (total + size - 1) size ltac:(lia)) as Hdm.
  pose proof (Z.mod_pos_bound (total + size - 1) size ltac:(lia)) as Hr.
  nia.
Qed.

(** C4: [ComputeMetadata] of no records is the zero-value record; for
    at least one record and a page size of at least 1 it has first page
    1, echoes the page and the page size, and its last page is the
    ceiling of [totalRecords / pageSize]: the one integer [q] with
    [(q - 1) * pageSize < totalRecords <= q * pageSize]. *)
Theorem ComputeMetadata_last_page (total page size : Z) :
  ComputeMetadata 0 page size =
    {| currentPage := 0; pageSize := 0; firstPage := 0;
       lastPage := 0; totalRecords := 0 |} /\
  (1 <= total -> 1 <= size ->
   let m := ComputeMetadata total page size in
   firstPage m = 1 /\ currentPage m = page /\ pageSize m = size /\
   totalRecords m = total /\
   (lastPage m - 1) * size < total <= lastPage m * size /\
   forall q, (q - 1) * size < total <= q * size -> lastPage m = q) /\
  lastPage (ComputeMetadata 21 page 20) = 2 /\
  lastPage (ComputeMetadata 20 page 20) = 1.
Proof.
  split; [reflexivity|]. split; [|split; reflexivity].
  intros Ht Hs m. subst m. unfold ComputeMetadata.
  destruct (Z.eqb_spec total 0) as [->|_]; [lia|].
  cbn [firstPage currentPage pageSize totalRecords lastPage].
  pose proof (ceiling_quot total size Ht Hs) as Hq.
  do 4 (split; [reflexivity|]). split; [exact Hq|].
  intros q Hb. nia.
Qed.

Lemma ComputeMetadata_last_page_witness :
  let m := ComputeMetadata 41 3 20 in
  firstPage m = 1 /\ currentPage m = 3 /\ pageSize m = 20 /\
  totalRecords m = 41 /\ (lastPage m - 1) * 20 < 41 <= lastPage m * 20 /\
  forall q, (q - 1) * 20 < 41 <= q * 20 -> lastPage m = q.
Proof.
  apply (proj1 (proj2 (ComputeMetadata_last_page 41 3 20))); lia.
Defined.

End filters_facts.

(** ** The update handler *)

Module update_facts.
Import golang data api validator_facts.

#[local] Ltac step_handler :=
  unfold updateMovieHandler, prepare, commit, send, run, finish, respond,
    call_Get, call_Update, mbind, mret, handler_bind, handler_ret;
  cbn beta iota.

Section collaborators.
Context {Store : Type}.
Variable get : Z -> Store -> result Movie.
Variable update : Movie -> Store -> option error * Movie * Store.
Variable validate : validator.Validator -> Movie -> validator.Validator.
Variable write : Z -> envelope -> option error.

(** [prepare] on a request that reaches the validation. *)
Lemma prepare_reaches_validation (r : Request) (w : @world Store)
    (id : Z) (movie : Movie) (i : input.t) :
  readIDParam r = Ok id ->
  get id (db w) = Ok movie ->
  readJSON r = Ok i ->
  prepare get validate r w =
    (if validator.Valid (validate validator.New (merge i movie))
     then inr (merge i movie)
     else inl (failedValidationResponse
                 (validator.Errors (validate validator.New (merge i movie)))),
     logged (CallGet id) w (db w)).
Proof.
  intros Hid Hget Hjson. step_handler.
  rewrite Hid, Hget, Hjson.
  now destruct (validator.Valid _).
Qed.

(** [prepare] never changes the database and never calls [Update]. *)
Lemma prepare_reads_only (r : Request) (w : @world Store) :
  db (prepare get validate r w).2 = db w /\
  (calls (prepare get validate r w).2 = calls w \/
   exists id, calls (prepare get validate r w).2 = calls w ++ [CallGet id]).
Proof.
  step_handler.
  destruct (readIDParam r) as [id|e]; cbn; [|auto].
  destruct (get id (db w)) as [movie|e]; cbn.
  - destruct (readJSON r) as [i|e]; cbn; [|eauto].
    destruct (validator.Valid _); cbn; eauto.
  - destruct (errors_Is e ErrRecordNotFound); cbn; eauto.
Qed.

(** An error of the first [Update] call, whichever it is, is answered
    with [serverErrorResponse]. *)
Lemma commit_first_error (movie movie' : Movie) (w : @world Store)
    (err : error) (db' : Store) :
  update movie (db w) = (Some err, movie', db') ->
  run (commit update write movie) w =
    (serverErrorResponse err, logged (CallUpdate movie) w db').
Proof. intros Hu. step_handler. now rewrite Hu. Qed.

(** When the first [Update] call succeeds, a second one follows, on
    the record the first call left. *)
Lemma commit_calls_Update_twice (movie movie' : Movie) (w : @world Store)
    (db' : Store) :
  update movie (db w) = (None, movie', db') ->
  exists resp db'',
    run (commit update write movie) w =
      (resp, {| db := db'';
                calls := calls w ++ [CallUpdate movie; CallUpdate movie'] |}) /\
    db'' = (update movie' db').2.
Proof.
  intros Hu. step_handler. rewrite Hu. cbn.
  destruct (update movie' db') as [[err movie''] db''] eqn:Hu2. cbn.
  unfold logged. cbn. rewrite <- app_assoc. cbn.
  destruct err as [err|].
  - destruct (errors_Is err ErrEditConflict); cbn; eauto.
  - destruct (write 200 (envelope_movie movie'')); cbn; eauto.
Qed.

(** The handler answers 200 only after two successful [Update] calls. *)
Lemma commit_ok_after_two_updates (movie : Movie) (w w' : @world Store)
    (body : envelope) :
  run (commit update write movie) w = (JSON 200 body, w') ->
  exists movie1 db1 movie2 db2,
    update movie (db w) = (None, movie1, db1) /\
    update movie1 db1 = (None, movie2, db2) /\
    body = envelope_movie movie2 /\
    w' = {| db := db2;
            calls := calls w ++ [CallUpdate movie; CallUpdate movie1] |}.
Proof.
  step_handler.
  destruct (update movie (db w)) as [[err movie1] db1] eqn:Hu1. cbn.
  destruct err as [err|]; cbn; [intros [=]|].
  destruct (update movie1 db1) as [[err movie2] db2] eqn:Hu2. cbn.
  destruct err as [err|]; cbn.
  - destruct (errors_Is err ErrEditConflict); intros [=].
  - destruct (write 200 (envelope_movie movie2)); cbn; intros [= <- <-].
    exists movie1, db1, movie2, db2. unfold logged. cbn.
    rewrite <- app_assoc. auto.
Qed.

(** The handler on a request whose merged record is invalid. *)
Lemma updateMovieHandler_invalid (r : Request) (w : @world Store)
    (id : Z) (movie : Movie) (i : input.t) :
  readIDParam r = Ok id ->
  get id (db w) = Ok movie ->
  readJSON r = Ok i ->
  validator.Valid (validate validator.New (merge i movie)) = false ->
  run (updateMovieHandler get update validate write r) w =
    (failedValidationResponse
       (validator.Errors (validate validator.New (merge i movie))),
     logged (CallGet id) w (db w)).
Proof.
  intros Hid Hget Hjson Hinvalid.
  pose proof (prepare_reaches_validation r w id movie i Hid Hget Hjson) as Hp.
  rewrite Hinvalid in Hp.
  unfold updateMovieHandler, run, mbind, handler_bind. now rewrite Hp.
Qed.

(** C9: when the merged record fails the domain validation, the
    handler answers with the field-error map; the only store call it
    has made is the [Get], and the database is the one it started
    with. *)
Theorem validation_failure_writes_nothing (r : Request) (w : @world Store)
    (id : Z) (movie : Movie) (i : input.t) :
  readIDParam r = Ok id ->
  get id (db w) = Ok movie ->
  readJSON r = Ok i ->
  validator.Valid (validate validator.New (merge i movie)) = false ->
  exists w',
    run (updateMovieHandler get update validate write r) w =
      (failedValidationResponse
         (validator.Errors (validate validator.New (merge i movie))), w') /\
    db w' = db w /\
    calls w' = calls w ++ [CallGet id] /\
    filter is_Update (calls w') = filter is_Update (calls w).
Proof.
  intros Hid Hget Hjson Hinvalid.
  exists (logged (CallGet id) w (db w)).
  rewrite (updateMovieHandler_invalid r w id movie i Hid Hget Hjson Hinvalid).
  cbn. split; [reflexivity|]. split; [reflexivity|]. split; [reflexivity|].
  rewrite filter_app. cbn. apply app_nil_r.
Qed.

End collaborators.

Lemma validation_failure_writes_nothing_witness :
  let r := scenario.patch (scenario.retitle "") in
  let merged := merge (scenario.retitle "") scenario.casablanca in
  let w := scenario.start in
  exists w',
    run (updateMovieHandler Get (Update true) (ValidateMovie 2024)
           scenario.writeJSON_ok r) w =
      (failedValidationResponse
         (validator.Errors (ValidateMovie 2024 validator.New merged)), w') /\
    db w' = db w /\
    calls w' = calls w ++ [CallGet 1] /\
    filter is_Update (calls w') = filter is_Update (calls w).
Proof.
  intros r merged w.
  apply (validation_failure_writes_nothing Get (Update true)
           (ValidateMovie 2024) scenario.writeJSON_ok r w 1
           scenario.casablanca (scenario.retitle ""));
    vm_compute; reflexivity.
Defined.

(** What [merge] leaves in each field. *)
Lemma merge_fields (i : input.t) (movie : Movie) :
  ID (merge i movie) = ID movie /\
  CreatedAt (merge i movie) = CreatedAt movie /\
  Version (merge i movie) = Version movie /\
  Title (merge i movie) = default (Title movie) (input.Title i) /\
  Year (merge i movie) = default (Year movie) (input.Year i) /\
  Runtime (merge i movie) = default (Runtime movie) (input.Runtime i) /\
  Genres (merge i movie) =
    match input.Genres i with
    | Some genres => Some genres
    | None => Genres movie
    end.
Proof.
  unfold merge.
  destruct (input.Title i), (input.Year i), (input.Runtime i),
    (input.Genres i); cbn; auto 10.
Qed.

(** The modelled domain validation reports an empty genre list. *)
Lemma ValidateMovie_empty_genres (currentYear : Z) (movie : Movie) :
  Genres movie = Some [] ->
  validator.Errors (ValidateMovie currentYear validator.New movie) !! "genres"
    = Some "must contain at least 1 genre".
Proof.
  intros Hg. unfold ValidateMovie. rewrite !lookup_Check, Hg.
  change (1 <=? len (Some [])) with false.
  cbn [validator.Errors validator.New]. rewrite lookup_empty.
  repeat match goal with
         | |- context [decide (?a = ?b)] =>
             destruct (decide (a = b)); try congruence
         | |- context [if ?b then _ else _] => destruct b
         end; reflexivity.
Qed.

(** C8: the merge writes exactly the fields present in the payload and
    keeps every other field of the fetched record (identity, creation
    time and version included); the merged record is the one the
    handler submits to the store.  Without a genres key the genres are
    those of the fetched record; with an explicitly empty list they
    become empty, and the handler then answers with a field error under
    "genres" without calling [Update]. *)
Theorem partial_update_merge (i : input.t) (movie : Movie) :
  (ID (merge i movie) = ID movie /\
   CreatedAt (merge i movie) = CreatedAt movie /\
   Version (merge i movie) = Version movie /\
   Title (merge i movie) = default (Title movie) (input.Title i) /\
   Year (merge i movie) = default (Year movie) (input.Year i) /\
   Runtime (merge i movie) = default (Runtime movie) (input.Runtime i) /\
   Genres (merge i movie) =
     match input.Genres i with
     | Some genres => Some genres
     | None => Genres movie
     end) /\
  (forall (Store : Type) get update validate write
          (r : Request) (w : @world Store) (id : Z),
      readIDParam r = Ok id -> get id (db w) = Ok movie -> readJSON r = Ok i ->
      validator.Valid (validate validator.New (merge i movie)) = true ->
      exists resp w',
        run (updateMovieHandler get update validate write r) w = (resp, w') /\
        calls w' !! S (length (calls w)) = Some (CallUpdate (merge i movie))) /\
  (input.Genres i = None -> Genres (merge i movie) = Genres movie) /\
  (input.Genres i = Some [] ->
   Genres (merge i movie) = Some [] /\
   forall (Store : Type) get update write (currentYear : Z)
          (r : Request) (w : @world Store) (id : Z),
     readIDParam r = Ok id -> get id (db w) = Ok movie -> readJSON r = Ok i ->
     exists errors,
       errors !! "genres" = Some "must contain at least 1 genre" /\
       run (updateMovieHandler get update (ValidateMovie currentYear) write r) w
       = (failedValidationResponse errors, logged (CallGet id) w (db w))).
Proof.
  pose proof (merge_fields i movie) as Hm.
  split; [exact Hm|]. destruct Hm as (_ & _ & _ & _ & _ & _ & Hg).
  split; [|split].
  - intros Store get update validate write r w id Hid Hget Hjson Hvalid.
    pose proof (prepare_reaches_validation get validate r w id movie i
                  Hid Hget Hjson) as Hp.
    rewrite Hvalid in Hp.
    destruct (update (merge i movie) (db w)) as [[err movie'] db'] eqn:Hu.
    set (w1 := logged (CallGet id) w (db w)) in *.
    assert (Hlen : S (length (calls w)) = length (calls w1)).
    { unfold w1, logged. cbn. rewrite length_app. cbn. lia. }
    destruct err as [err|].
    + pose proof (commit_first_error update write (merge i movie) movie' w1
                    err db' Hu) as Hc.
      eexists _, _. split.
      * unfold updateMovieHandler, run, mbind, handler_bind in *.
        rewrite Hp. exact Hc.
      * cbn [calls logged]. rewrite Hlen.
        rewrite lookup_app_r by lia. now rewrite Nat.sub_diag.
    + destruct (commit_calls_Update_twice update write (merge i movie) movie'
                  w1 db' Hu) as (resp & db'' & Hc & _).
      eexists _, _. split.
      * unfold updateMovieHandler, run, mbind, handler_bind in *.
        rewrite Hp. exact Hc.
      * cbn [calls]. rewrite Hlen.
        rewrite lookup_app_r by lia. now rewrite Nat.sub_diag.
  - intros Hnone. now rewrite Hg, Hnone.
  - intros Hempty. rewrite Hempty in Hg. split; [exact Hg|].
    intros Store get update write currentYear r w id Hid Hget Hjson.
    pose proof (ValidateMovie_empty_genres currentYear _ Hg) as Herr.
    assert (Hinvalid : validator.Valid
              (ValidateMovie currentYear validator.New (merge i movie)) = false).
    { apply invalid_lookup. eauto. }
    eexists. split; [exact Herr|].
    apply (updateMovieHandler_invalid get update (ValidateMovie currentYear)
             write r w id movie i Hid Hget Hjson Hinvalid).
Qed.

Lemma partial_update_merge_witness :
  let keep := scenario.only_genres None in
  let wipe := scenario.only_genres (Some []) in
  let rename := scenario.retitle "Play it again" in
  Genres (merge keep scenario.casablanca) = Genres scenario.casablanca /\
  Genres (merge wipe scenario.casablanca) = Some [] /\
  (exists errors,
      errors !! "genres" = Some "must contain at least 1 genre" /\
      run (updateMovieHandler Get (Update true) (ValidateMovie 2024)
             scenario.writeJSON_ok (scenario.patch wipe)) scenario.start
      = (failedValidationResponse errors,
         logged (CallGet 1) scenario.start (db scenario.start))) /\
  (exists resp w',
      run (updateMovieHandler Get (Update true) (ValidateMovie 2024)
             scenario.writeJSON_ok (scenario.patch rename)) scenario.start
      = (resp, w') /\
      calls w' !! 1%nat = Some (CallUpdate (merge rename scenario.casablanca))).
Proof.
  intros keep wipe rename.
  destruct (partial_update_merge keep scenario.casablanca)
    as (_ & _ & Hkeep & _).
  destruct (partial_update_merge wipe scenario.casablanca)
    as (_ & _ & _ & Hwipe).
  destruct (partial_update_merge rename scenario.casablanca)
    as (_ & Hsubmit & _ & _).
  split; [apply Hkeep; reflexivity|].
  destruct (Hwipe eq_refl) as [Hempty Hreject].
  split; [exact Hempty|]. split.
  - apply (Hreject _ Get (Update true) scenario.writeJSON_ok 2024
             (scenario.patch wipe) scenario.start 1); reflexivity.
  - apply (Hsubmit _ Get (Update true) (ValidateMovie 2024)
             scenario.writeJSON_ok (scenario.patch rename) scenario.start 1);
      vm_compute; reflexivity.
Defined.

(** C1, as the code behaves: an edit conflict reported by the first of
    the handler's two [Update] calls is answered with
    [serverErrorResponse] (500), not with [editConflictResponse] (409).
    Two requests fetch version 3 of the same movie; the first commits;
    the commit of the second, still carrying version 3, is refused by
    the store with [ErrEditConflict] on its first [Update] call. *)
Theorem stale_commit_answered_with_server_error (writeback : bool) :
  let first := scenario.patch (scenario.retitle "A") in
  let second := scenario.patch (scenario.retitle "B") in
  let stale := merge (scenario.retitle "B") scenario.casablanca in
  let outcome := scenario.serve_both writeback first second scenario.start in
  let resp2 := outcome.1.2 in
  let w := outcome.2 in
  Version stale = 3 /\
  (exists stored, db w !! 1 = Some stored /\ 3 < Version stored) /\
  last (calls w) = Some (CallUpdate stale) /\
  (Update writeback stale (db w)).1.1 = Some ErrEditConflict /\
  resp2 = serverErrorResponse ErrEditConflict /\
  statusCode resp2 = 500 /\
  resp2 <> editConflictResponse.
Proof.
  destruct writeback; vm_compute;
    (split; [reflexivity|]); (split; [eexists; split; [reflexivity|reflexivity]|]);
    repeat split; discriminate.
Qed.

(** C2, as the code behaves: an update that reaches the commit step and
    whose first [Update] call succeeds calls [Update] a second time.
    With a store that writes the new version back into the record, the
    request is answered 200 and the stored version has grown by 2; with
    a store that does not, the second call conflicts with the first, the
    request is answered with [editConflictResponse] and the store has
    nevertheless been written once. *)
Theorem successful_update_calls_Update_twice :
  let r := scenario.patch (scenario.retitle "Play it again") in
  let merged := merge (scenario.retitle "Play it again") scenario.casablanca in
  let with_writeback := scenario.serve true r scenario.start in
  let without := scenario.serve false r scenario.start in
  Version scenario.casablanca = 3 /\
  with_writeback.1 = JSON 200 (envelope_movie (bump (bump merged))) /\
  db with_writeback.2 !! 1 = Some (bump (bump merged)) /\
  Version (bump (bump merged)) = 5 /\
  calls with_writeback.2 =
    [CallGet 1; CallUpdate merged; CallUpdate (bump merged)] /\
  without.1 = editConflictResponse /\
  db without.2 !! 1 = Some (bump merged) /\
  calls without.2 = [CallGet 1; CallUpdate merged; CallUpdate merged].
Proof. vm_compute. repeat split; reflexivity. Qed.

End update_facts.

(** ** The list handler *)

Module list_facts.
Import golang data api validator_facts filters_facts.

Lemma Values_Get_absent (qs : gmap string (list string)) (key : string) :
  qs !! key = None -> Values_Get qs key = "".
Proof. unfold Values_Get. now intros ->. Qed.

Lemma readString_absent (qs : gmap string (list string))
    (key defaultValue : string) :
  qs !! key = None -> readString qs key defaultValue = defaultValue.
Proof.
  intros Hk. unfold readString. now rewrite (Values_Get_absent qs key Hk).
Qed.

Lemma readInt_absent (Atoi : string -> option Z)
    (qs : gmap string (list string)) (key : string) (defaultValue : Z)
    (v : validator.Validator) :
  qs !! key = None -> readInt Atoi qs key defaultValue v = (defaultValue, v).
Proof.
  intros Hk. unfold readInt. now rewrite (Values_Get_absent qs key Hk).
Qed.

(** A read of one integer parameter writes no error under another key. *)
Lemma readInt_other_key (Atoi : string -> option Z)
    (qs : gmap string (list string)) (key k : string) (defaultValue : Z)
    (v : validator.Validator) :
  key <> k ->
  validator.Errors (readInt Atoi qs key defaultValue v).2 !! k
  = validator.Errors v !! k.
Proof.
  intros Hne. unfold readInt.
  destruct (String.eqb (Values_Get qs key) ""); [reflexivity|].
  destruct (Atoi (Values_Get qs key)); [reflexivity|].
  cbn [snd]. unfold validator.AddError.
  destruct (validator.Errors v !! key); [reflexivity|].
  cbn [validator.Errors]. now rewrite lookup_insert_ne.
Qed.

(** The input of the list handler, read by read. *)
Lemma listMoviesInput_reads (Atoi : string -> option Z)
    (qs : gmap string (list string)) :
  listMoviesInput Atoi qs =
    (readString qs "title" "", readCSV qs "genres" (Some []),
     {| Page := (readInt Atoi qs "page" 1 validator.New).1;
        PageSize := (readInt Atoi qs "page_size" 20
                       (readInt Atoi qs "page" 1 validator.New).2).1;
        Sort := readString qs "sort" "id";
        SortSafeList := SortSafeList_movies |},
     (readInt Atoi qs "page_size" 20
        (readInt Atoi qs "page" 1 validator.New).2).2).
Proof.
  unfold listMoviesInput.
  destruct (readInt Atoi qs "page" 1 validator.New) as [page v1]. cbn [fst snd].
  now destruct (readInt Atoi qs "page_size" 20 v1) as [size v2].
Qed.

(** C10: whatever the query string, the sort safelist of the list
    endpoint is the eight strings "id", "title", "year", "runtime" and
    their '-' forms.  Each parameter has its own default, whatever the
    other parameters are: without a page key the page is 1, without a
    page_size key the page size is 20, without a sort key the sort is "id"
    (the id column, ascending); and the default passes its check:
    [ValidateFilters] leaves no error under that parameter's name.  When
    all three keys are absent the validator is still empty after the
    reads, [ValidateFilters] passes as a whole, and the handler queries
    the store with exactly these filters. *)
Theorem list_defaults (Atoi : string -> option Z)
    (qs : gmap string (list string)) :
  let f := (listMoviesInput Atoi qs).1.2 in
  let v := (listMoviesInput Atoi qs).2 in
  let errs := validator.Errors (ValidateFilters v f) in
  SortSafeList f =
    ["id"; "title"; "year"; "runtime"; "-id"; "-title"; "-year"; "-runtime"] /\
  (qs !! "page" = None -> Page f = 1 /\ errs !! "page" = None) /\
  (qs !! "page_size" = None -> PageSize f = 20 /\ errs !! "page_size" = None) /\
  (qs !! "sort" = None ->
   Sort f = "id" /\ sortColumn f = Returns "id" /\ sortDirection f = "ASC" /\
   errs !! "sort" = None) /\
  (qs !! "page" = None -> qs !! "page_size" = None -> qs !! "sort" = None ->
   Page f = 1 /\ PageSize f = 20 /\ Sort f = "id" /\
   sortColumn f = Returns "id" /\ sortDirection f = "ASC" /\
   v = validator.New /\
   validator.Valid (ValidateFilters v f) = true /\
   forall (Store : Type) GetAll write (w : @world Store),
     exists resp,
       run (listMoviesHandler GetAll write Atoi qs) w =
         (resp,
          logged (CallGetAll (readString qs "title" "")
                    (readCSV qs "genres" (Some []))
                    {| Page := 1; PageSize := 20; Sort := "id";
                       SortSafeList := SortSafeList_movies |})
            w (db w))).
Proof.
  intros f v errs. subst f v errs.
  rewrite (listMoviesInput_reads Atoi qs). cbn [fst snd].
  split; [reflexivity|]. split; [|split; [|split]].
  - intros Hpage. rewrite (readInt_absent Atoi qs "page" 1 _ Hpage).
    cbn [fst snd Page]. split; [reflexivity|].
    rewrite lookup_ValidateFilters.
    rewrite readInt_other_key by discriminate.
    reflexivity.
  - intros Hsize. rewrite (readInt_absent Atoi qs "page_size" 20 _ Hsize).
    cbn [fst snd PageSize]. split; [reflexivity|].
    rewrite lookup_ValidateFilters.
    rewrite readInt_other_key by discriminate.
    reflexivity.
  - intros Hsort. rewrite (readString_absent qs "sort" "id" Hsort).
    cbn [Sort]. do 3 (split; [reflexivity|]).
    rewrite lookup_ValidateFilters.
    rewrite !readInt_other_key by discriminate.
    reflexivity.
  - intros Hpage Hsize Hsort.
    assert (Hin : listMoviesInput Atoi qs =
              (readString qs "title" "", readCSV qs "genres" (Some []),
               {| Page := 1; PageSize := 20; Sort := "id";
                  SortSafeList := SortSafeList_movies |},
               validator.New)).
    { rewrite listMoviesInput_reads.
      rewrite (readInt_absent Atoi qs "page" 1 _ Hpage). cbn [fst snd].
      rewrite (readInt_absent Atoi qs "page_size" 20 _ Hsize). cbn [fst snd].
      now rewrite (readString_absent qs "sort" "id" Hsort). }
    rewrite (readInt_absent Atoi qs "page" 1 _ Hpage). cbn [fst snd].
    rewrite (readInt_absent Atoi qs "page_size" 20 _ Hsize). cbn [fst snd].
    rewrite (readString_absent qs "sort" "id" Hsort).
    cbn [Page PageSize Sort].
    do 6 (split; [reflexivity|]).
    assert (Hvalid : validator.Valid
              (ValidateFilters validator.New
                 {| Page := 1; PageSize := 20; Sort := "id";
                    SortSafeList := SortSafeList_movies |}) = true).
    { apply Valid_ValidateFilters. cbn [Page PageSize Sort SortSafeList].
      split; [reflexivity|]. split; [lia|]. split; [lia|].
      apply In_spec. reflexivity. }
    split; [exact Hvalid|].
    intros Store GetAll write w.
    unfold listMoviesHandler, run. rewrite Hin, Hvalid.
    unfold mbind, handler_bind, call_GetAll, send, respond. cbn.
    destruct (GetAll _ _ _ (db w)) as [[movies metadata]|err]; [|eauto].
    destruct (write 200 _); eauto.
Qed.

Lemma list_defaults_witness :
  let Atoi : string -> option Z := fun _ => Some 5 in
  let only_page : gmap string (list string) := {[ "page" := ["5"] ]} in
  let only_size : gmap string (list string) := {[ "page_size" := ["5"] ]} in
  let only_title : gmap string (list string) := {[ "title" := ["casablanca"] ]} in
  let f1 := (listMoviesInput Atoi only_page).1.2 in
  let e1 := validator.Errors
              (ValidateFilters (listMoviesInput Atoi only_page).2 f1) in
  let f2 := (listMoviesInput Atoi only_size).1.2 in
  let e2 := validator.Errors
              (ValidateFilters (listMoviesInput Atoi only_size).2 f2) in
  let f3 := (listMoviesInput Atoi only_title).1.2 in
  let v3 := (listMoviesInput Atoi only_title).2 in
  (Page f1 = 5 /\ PageSize f1 = 20 /\ e1 !! "page_size" = None) /\
  (Sort f1 = "id" /\ sortColumn f1 = Returns "id" /\
   sortDirection f1 = "ASC" /\ e1 !! "sort" = None) /\
  (PageSize f2 = 5 /\ Page f2 = 1 /\ e2 !! "page" = None) /\
  (Page f3 = 1 /\ PageSize f3 = 20 /\ Sort f3 = "id" /\
   sortColumn f3 = Returns "id" /\ sortDirection f3 = "ASC" /\
   v3 = validator.New /\
   validator.Valid (ValidateFilters v3 f3) = true /\
   forall (Store : Type) GetAll write (w : @world Store),
     exists resp,
       run (listMoviesHandler GetAll write Atoi only_title) w =
         (resp,
          logged (CallGetAll (readString only_title "title" "")
                    (readCSV only_title "genres" (Some []))
                    {| Page := 1; PageSize := 20; Sort := "id";
                       SortSafeList := SortSafeList_movies |})
            w (db w))).
Proof.
  intros Atoi only_page only_size only_title f1 e1 f2 e2 f3 v3.
  destruct (list_defaults Atoi only_page) as (_ & _ & Hsize1 & Hsort1 & _).
  destruct (list_defaults Atoi only_size) as (_ & Hpage2 & _ & _ & _).
  destruct (list_defaults Atoi only_title) as (_ & _ & _ & _ & Hall3).
  split; [|split; [|split]].
  - split; [reflexivity|]. apply Hsize1. reflexivity.
  - apply Hsort1. reflexivity.
  - split; [reflexivity|]. apply Hpage2. reflexivity.
  - apply Hall3; reflexivity.
Defined.

End list_facts.


(** ** Filters: further properties *)

Module filters_more.
Import golang data api golang_facts validator_facts.

(** What a return of the safelist loop tells. *)
Lemma sortColumn_range_returns (sort column : string) (safe : list string) :
  sortColumn_range sort safe = Returns column ->
  sort ∈ safe /\ column = TrimPrefix sort "-".
Proof.
  induction safe as [|x safe IH]; cbn [sortColumn_range]; [discriminate|].
  destruct (String.eqb_spec sort x) as [->|Hne].
  - intros [= <-]. split; [left | reflexivity].
  - intros H. destruct (IH H) as [Hin ->]. split; [now right | reflexivity].
Qed.

(** X1: whatever the sort key, a column returned by [sortColumn] is a
    safelist entry without its leading '-', and the direction is one of
    the two keywords; with the safelist of the list endpoint the column is
    one of id, title, year, runtime. *)
Theorem sortColumn_from_safelist (f : Filters) (column : string) :
  sortColumn f = Returns column ->
  column ∈ (fun s => TrimPrefix s "-") <$> SortSafeList f /\
  (sortDirection f = "ASC" \/ sortDirection f = "DESC") /\
  (SortSafeList f = SortSafeList_movies ->
   column ∈ ["id"; "title"; "year"; "runtime"]).
Proof.
  unfold sortColumn. intros Hret.
  apply sortColumn_range_returns in Hret as [Hin ->].
  assert (Hmap : TrimPrefix (Sort f) "-"
                 ∈ (fun s => TrimPrefix s "-") <$> SortSafeList f).
  { apply list_elem_of_fmap. eauto. }
  split; [exact Hmap|]. split.
  - unfold sortDirection. destruct (HasPrefix (Sort f) "-"); auto.
  - intros Hsafe. rewrite Hsafe in Hmap. cbn in Hmap.
    rewrite !elem_of_cons, elem_of_nil in Hmap.
    rewrite !elem_of_cons, elem_of_nil. tauto.
Qed.

Lemma sortColumn_from_safelist_witness :
  let f := {| Page := 2; PageSize := 50; Sort := "-runtime";
              SortSafeList := SortSafeList_movies |} in
  "runtime" ∈ (fun s => TrimPrefix s "-") <$> SortSafeList f /\
  (sortDirection f = "ASC" \/ sortDirection f = "DESC") /\
  (SortSafeList f = SortSafeList_movies ->
   "runtime" ∈ ["id"; "title"; "year"; "runtime"]).
Proof.
  intros f. apply (sortColumn_from_safelist f "runtime"). reflexivity.
Defined.

(** X2: [ValidateFilters] leaves the validator valid exactly when it was
    valid before and the page is in [1, 10_000_000], the page size in
    [1, 100] and the sort key on the safelist. *)
Theorem ValidateFilters_passes_iff (v : validator.Validator) (f : Filters) :
  validator.Valid (ValidateFilters v f) = true <->
  validator.Valid v = true /\
  1 <= Page f <= 10000000 /\ 1 <= PageSize f <= 100 /\
  Sort f ∈ SortSafeList f.
Proof.
  unfold ValidateFilters. rewrite !Valid_Check, In_spec.
  rewrite !Z.ltb_lt, !Z.leb_le. intuition lia.
Qed.

(** X3: within the validated ranges the pages tile the result set: page 1
    starts at offset 0, and of two pages with the same page size the later
    one starts at or after the end of the earlier one, exactly at its end
    when it is the next page. *)
Theorem offset_pages_tile (f g : Filters) :
  1 <= PageSize f <= 100 ->
  PageSize g = PageSize f ->
  1 <= Page f -> Page f < Page g -> Page g <= 10000000 ->
  (Page f = 1 -> offset f = 0) /\
  offset f + limit f <= offset g /\
  (offset g = offset f + limit f <-> Page g = Page f + 1).
Proof.
  intros Hs Hsize Hp Hpq Hq.
  assert (Hoff : forall h : Filters,
             1 <= Page h <= 10000000 -> PageSize h = PageSize f ->
             offset h = (Page h - 1) * PageSize f).
  { intros h Hh Hhs. unfold offset, int_mul, int_sub. rewrite Hhs.
    rewrite (int_wrap_small (Page h - 1)) by (unfold int_min, int_max; lia).
    apply int_wrap_small. unfold int_min, int_max. nia. }
  rewrite (Hoff f) by (lia || reflexivity). rewrite (Hoff g) by (lia || assumption).
  unfold limit. split; [intros ->; lia|]. split; [nia|]. split; nia.
Qed.

Lemma offset_pages_tile_witness :
  let f := {| Page := 1; PageSize := 20; Sort := "id"; SortSafeList := ["id"] |} in
  let g := {| Page := 2; PageSize := 20; Sort := "id"; SortSafeList := ["id"] |} in
  (Page f = 1 -> offset f = 0) /\
  offset f + limit f <= offset g /\
  (offset g = offset f + limit f <-> Page g = Page f + 1).
Proof.
  intros f g. apply (offset_pages_tile f g); simpl; lia.
Defined.

End filters_more.

(** ** The list handler: further properties *)

Module list_more.
Import golang data api golang_facts validator_facts.

Section collaborators.
Context {Store : Type}.
Variable getAll :
  string -> slice string -> Filters -> Store -> result (list Movie * Metadata).
Variable write : Z -> envelope -> option error.
Variable Atoi : string -> option Z.

(** The handler once the query string has been read. *)
Lemma listMoviesHandler_unfold (qs : gmap string (list string))
    (w : @world Store) (title : string) (genres : slice string)
    (f : Filters) (v : validator.Validator) :
  listMoviesInput Atoi qs = (title, genres, f, v) ->
  run (listMoviesHandler getAll write Atoi qs) w =
    if validator.Valid (ValidateFilters v f)
    then (match getAll title genres f (db w) with
          | Err err => serverErrorResponse err
          | Ok (movies, metadata) =>
              match write 200 (envelope_movies movies metadata) with
              | Some err => serverErrorResponse err
              | None => JSON 200 (envelope_movies movies metadata)
              end
          end,
          logged (CallGetAll title genres f) w (db w))
    else (failedValidationResponse (validator.Errors (ValidateFilters v f)), w).
Proof.
  intros Hin. unfold listMoviesHandler, run. rewrite Hin.
  destruct (validator.Valid (ValidateFilters v f)); cbn; [|reflexivity].
  unfold mbind, handler_bind, call_GetAll, send, respond. cbn.
  destruct (getAll title genres f (db w)) as [[movies metadata]|err]; cbn;
    [|reflexivity].
  now destruct (write 200 (envelope_movies movies metadata)).
Qed.

(** X4: when the filters read from the query string fail the validation,
    the list handler answers with the field errors and has not touched the
    store: no call is logged and the database is the same. *)
Theorem listMoviesHandler_invalid_no_store_access
    (qs : gmap string (list string)) (w : @world Store) :
  let f := (listMoviesInput Atoi qs).1.2 in
  let v := (listMoviesInput Atoi qs).2 in
  validator.Valid (ValidateFilters v f) = false ->
  run (listMoviesHandler getAll write Atoi qs) w =
    (failedValidationResponse (validator.Errors (ValidateFilters v f)), w).
Proof.
  destruct (listMoviesInput Atoi qs) as [[[title genres] f] v] eqn:Hin.
  cbn [fst snd]. intros Hinvalid.
  rewrite (listMoviesHandler_unfold qs w title genres f v Hin).
  now rewrite Hinvalid.
Qed.

(** X5: the list handler never changes the database and makes at most one
    store call; the filters of that [GetAll] call are always within the
    validated ranges with a safelisted sort key, so that [sortColumn]
    returns one of the four column names and [offset] is the exact,
    non-negative product. *)
Theorem listMoviesHandler_queries_safely
    (qs : gmap string (list string)) (w : @world Store) :
  let w' := (run (listMoviesHandler getAll write Atoi qs) w).2 in
  db w' = db w /\
  (calls w' = calls w \/
   exists title genres f,
     calls w' = calls w ++ [CallGetAll title genres f] /\
     1 <= Page f <= 10000000 /\ 1 <= PageSize f <= 100 /\
     Sort f ∈ SortSafeList_movies /\
     (exists column, sortColumn f = Returns column /\
                     column ∈ ["id"; "title"; "year"; "runtime"]) /\
     offset f = (Page f - 1) * PageSize f /\ 0 <= offset f).
Proof.
  destruct (listMoviesInput Atoi qs) as [[[title genres] f] v] eqn:Hin.
  rewrite (listMoviesHandler_unfold qs w title genres f v Hin).
  assert (Hsafe : SortSafeList f = SortSafeList_movies).
  { revert Hin. unfold listMoviesInput.
    destruct (readInt Atoi qs "page" 1 validator.New) as [page v1].
    destruct (readInt Atoi qs "page_size" 20 v1) as [size v2].
    now intros [= <- <- <- <-]. }
  destruct (validator.Valid (ValidateFilters v f)) eqn:Hvalid; cbn [snd];
    [|auto].
  split; [reflexivity|]. right. exists title, genres, f.
  split; [reflexivity|].
  unfold ValidateFilters in Hvalid. rewrite !Valid_Check, In_spec in Hvalid.
  rewrite !Z.ltb_lt, !Z.leb_le in Hvalid.
  destruct Hvalid as (((((_ & Hp1) & Hp2) & Hs1) & Hs2) & Hsort).
  rewrite Hsafe in Hsort.
  split; [lia|]. split; [lia|]. split; [exact Hsort|]. split.
  - exists (TrimPrefix (Sort f) "-"). split.
    + unfold sortColumn. rewrite Hsafe.
      generalize dependent (Sort f). intros s Hs.
      unfold SortSafeList_movies in *.
      rewrite !elem_of_cons, elem_of_nil in Hs.
      repeat (destruct Hs as [->|Hs]; [reflexivity|]). contradiction.
    + generalize dependent (Sort f). intros s Hs.
      unfold SortSafeList_movies in *.
      rewrite !elem_of_cons, elem_of_nil in Hs.
      repeat (destruct Hs as [->|Hs];
              [cbn; rewrite !elem_of_cons; tauto|]).
      contradiction.
  - unfold offset, int_mul, int_sub.
    rewrite (int_wrap_small (Page f - 1)) by (unfold int_min, int_max; lia).
    rewrite int_wrap_small by (unfold int_min, int_max; nia).
    split; [reflexivity | nia].
Qed.

End collaborators.

Lemma listMoviesHandler_invalid_no_store_access_witness :
  let qs : gmap string (list string) := {[ "sort" := ["budget"] ]} in
  let Atoi : string -> option Z := fun _ => None in
  let getAll := fun (_ : string) (_ : slice string) (_ : Filters)
                    (_ : gmap Z Movie) =>
                  Ok ([], ComputeMetadata 0 1 20) in
  let f := (listMoviesInput Atoi qs).1.2 in
  let v := (listMoviesInput Atoi qs).2 in
  run (listMoviesHandler getAll scenario.writeJSON_ok Atoi qs) scenario.start =
    (failedValidationResponse (validator.Errors (ValidateFilters v f)),
     scenario.start).
Proof.
  intros qs Atoi getAll.
  apply (listMoviesHandler_invalid_no_store_access getAll
           scenario.writeJSON_ok Atoi qs scenario.start).
  vm_compute. reflexivity.
Defined.

End list_more.

(** ** The update handler: further properties *)

Module update_more.
Import golang data api validator_facts.

#[local] Ltac step_handler :=
  unfold updateMovieHandler, prepare, commit, send, run, respond,
    call_Get, call_Update, mbind, mret, handler_bind, handler_ret, logged;
  cbn beta iota.

Section collaborators.
Context {Store : Type}.
Variable get : Z -> Store -> result Movie.
Variable update : Movie -> Store -> option error * Movie * Store.
Variable validate : validator.Validator -> Movie -> validator.Validator.
Variable write : Z -> envelope -> option error.

(** X6: every run of the update handler makes at most one [Get] followed
    by at most two [Update] calls, and in that order.  Without an [Update]
    call the database is untouched; a run that stops after one [Update]
    call has answered with a server error; after two the database is the
    one the second call left. *)
Theorem updateMovieHandler_call_shape (r : Request) (w : @world Store) :
  let resp := (run (updateMovieHandler get update validate write r) w).1 in
  let w' := (run (updateMovieHandler get update validate write r) w).2 in
  (calls w' = calls w /\ db w' = db w) \/
  (exists id, calls w' = calls w ++ [CallGet id] /\ db w' = db w) \/
  (exists id movie err,
      calls w' = calls w ++ [CallGet id; CallUpdate movie] /\
      (update movie (db w)).1.1 = Some err /\
      db w' = (update movie (db w)).2 /\
      resp = serverErrorResponse err) \/
  (exists id movie movie',
      calls w' = calls w ++ [CallGet id; CallUpdate movie; CallUpdate movie'] /\
      update movie (db w) = (None, movie', (update movie (db w)).2) /\
      db w' = (update movie' (update movie (db w)).2).2).
Proof.
  step_handler.
  destruct (readIDParam r) as [id|e]; cbn; [|auto].
  destruct (get id (db w)) as [movie|e]; cbn.
  2: { right. left. exists id.
       destruct (errors_Is e ErrRecordNotFound); cbn; auto. }
  destruct (readJSON r) as [i|e]; cbn; [|right; left; eauto].
  destruct (validator.Valid (validate validator.New (merge i movie))); cbn;
    [|right; left; eauto].
  destruct (update (merge i movie) (db w)) as [[err movie1] db1] eqn:Hu1. cbn.
  destruct err as [err|]; cbn.
  { right. right. left. exists id, (merge i movie), err.
    rewrite <- app_assoc. cbn. rewrite Hu1. auto. }
  destruct (update movie1 db1) as [[err movie2] db2] eqn:Hu2. cbn.
  right. right. right. exists id, (merge i movie), movie1.
  rewrite Hu1. cbn. rewrite Hu2. cbn.
  assert (Hcalls : ((calls w ++ [CallGet id]) ++ [CallUpdate (merge i movie)])
                   ++ [CallUpdate movie1]
                   = calls w ++ [CallGet id; CallUpdate (merge i movie);
                                 CallUpdate movie1]).
  { now rewrite <- !app_assoc. }
  destruct err as [err|]; cbn.
  - destruct (errors_Is err ErrEditConflict); cbn; rewrite Hcalls; auto.
  - destruct (write 200 (envelope_movie movie2)); cbn; rewrite Hcalls; auto.
Qed.

(** X7: the failures before validation.  A request whose id cannot be read
    is answered 404 without any store call.  When the fetch fails the
    answer depends on the store's error alone (404 for a missing record,
    500 otherwise) and the body is never looked at.  A body that cannot be
    decoded is answered 400 only after the record has been fetched.  In
    all three cases [Update] is not called. *)
Theorem updateMovieHandler_early_failures (r : Request) (w : @world Store) :
  (forall e, readIDParam r = Err e ->
     run (updateMovieHandler get update validate write r) w
     = (notFoundResponse, w)) /\
  (forall id e, readIDParam r = Ok id -> get id (db w) = Err e ->
     run (updateMovieHandler get update validate write r) w
     = (if errors_Is e ErrRecordNotFound
        then notFoundResponse else serverErrorResponse e,
        {| db := db w; calls := calls w ++ [CallGet id] |})) /\
  (forall id movie e,
     readIDParam r = Ok id -> get id (db w) = Ok movie -> readJSON r = Err e ->
     run (updateMovieHandler get update validate write r) w
     = (badRequestResponse e,
        {| db := db w; calls := calls w ++ [CallGet id] |})).
Proof.
  split; [|split].
  - intros e He. step_handler. rewrite He. cbn. now destruct w.
  - intros id e Hid Hget. step_handler. rewrite Hid. cbn. rewrite Hget. cbn.
    now destruct (errors_Is e ErrRecordNotFound).
  - intros id movie e Hid Hget Hjson. step_handler.
    rewrite Hid. cbn. rewrite Hget. cbn. now rewrite Hjson.
Qed.

End collaborators.

Lemma updateMovieHandler_early_failures_witness :
  let bad_id : Request :=
    {| readIDParam := Err (ErrOther "invalid id parameter");
       readJSON := Ok (scenario.retitle "A") |} in
  let missing : Request :=
    {| readIDParam := Ok 7; readJSON := Err (ErrOther "body contains badly-formed JSON") |} in
  let bad_body : Request :=
    {| readIDParam := Ok 1; readJSON := Err (ErrOther "body contains badly-formed JSON") |} in
  let serve := fun r =>
    run (updateMovieHandler Get (Update true) (ValidateMovie 2024)
           scenario.writeJSON_ok r) scenario.start in
  serve bad_id = (notFoundResponse, scenario.start) /\
  serve missing =
    (notFoundResponse,
     {| db := db scenario.start; calls := calls scenario.start ++ [CallGet 7] |}) /\
  serve bad_body =
    (badRequestResponse (ErrOther "body contains badly-formed JSON"),
     {| db := db scenario.start; calls := calls scenario.start ++ [CallGet 1] |}).
Proof.
  intros bad_id missing bad_body serve. split; [|split].
  - apply (proj1 (updateMovieHandler_early_failures Get (Update true)
                    (ValidateMovie 2024) scenario.writeJSON_ok bad_id
                    scenario.start) (ErrOther "invalid id parameter")).
    reflexivity.
  - apply (proj1 (proj2 (updateMovieHandler_early_failures Get (Update true)
                    (ValidateMovie 2024) scenario.writeJSON_ok missing
                    scenario.start)) 7 ErrRecordNotFound); reflexivity.
  - apply (proj2 (proj2 (updateMovieHandler_early_failures Get (Update true)
                    (ValidateMovie 2024) scenario.writeJSON_ok bad_body
                    scenario.start)) 1 scenario.casablanca); reflexivity.
Defined.

(** X8: how merges compose.  A payload with no key at all leaves the
    record as it is; applying the same payload twice is the same as
    applying it once; and when a payload names all four fields, the domain
    fields of the result are the payload's whatever the record held. *)
Theorem merge_algebra (i : input.t) (movie other : Movie) :
  merge {| input.Title := None; input.Year := None;
           input.Runtime := None; input.Genres := None |} movie = movie /\
  merge i (merge i movie) = merge i movie /\
  (is_Some (input.Title i) -> is_Some (input.Year i) ->
   is_Some (input.Runtime i) -> is_Some (input.Genres i) ->
   Title (merge i movie) = Title (merge i other) /\
   Year (merge i movie) = Year (merge i other) /\
   Runtime (merge i movie) = Runtime (merge i other) /\
   Genres (merge i movie) = Genres (merge i other)).
Proof.
  split; [|split].
  - unfold merge. cbn. now destruct movie.
  - unfold merge.
    destruct (input.Title i), (input.Year i), (input.Runtime i),
      (input.Genres i); destruct movie; reflexivity.
  - intros [t Ht] [y Hy] [rt Hr] [g Hg]. unfold merge.
    rewrite Ht, Hy, Hr, Hg. cbn. auto.
Qed.

Lemma merge_algebra_witness :
  let i := {| input.Title := Some "Casablanca (restored)"; input.Year := Some 1943;
              input.Runtime := Some 103; input.Genres := Some ["drama"] |} in
  let movie := scenario.casablanca in
  let other := bump scenario.casablanca in
  Title (merge i movie) = Title (merge i other) /\
  Year (merge i movie) = Year (merge i other) /\
  Runtime (merge i movie) = Runtime (merge i other) /\
  Genres (merge i movie) = Genres (merge i other).
Proof.
  intros i movie other.
  apply (proj2 (proj2 (merge_algebra i movie other))); cbn; eauto.
Defined.

End update_more.

(** ** Show, create and delete *)

Module rest_facts.
Import golang data api rest.

Section collaborators.
Context {Store : Type}.
Variable get : Z -> Store -> result Movie.
Variable insert : Movie -> Store -> option error * Movie * Store.
Variable del : Z -> Store -> option error * Store.
Variable validate : validator.Validator -> Movie -> validator.Validator.
Variable write : Z -> rest.envelope -> gmap string (list string) -> option error.

(** X9: the show handler never changes the database.  It answers with the
    plain 404 exactly when the id cannot be read or is below 1, and then
    without any store call; otherwise it makes exactly one [Get] call; and
    a body it writes is always status 200 with the record [Get] returned
    and no extra header. *)
Theorem showMovieHandler_answers (readIDParam : result Z) (st : Store) :
  let reply := (showMovieHandler get write readIDParam st).1.1 in
  let st' := (showMovieHandler get write readIDParam st).1.2 in
  let ops := (showMovieHandler get write readIDParam st).2 in
  st' = st /\
  (reply = http_NotFound <->
   (exists e, readIDParam = Err e) \/ (exists id, readIDParam = Ok id /\ id < 1)) /\
  (ops = [] <-> reply = http_NotFound) /\
  (ops <> [] -> exists id, readIDParam = Ok id /\ 1 <= id /\ ops = [OpGet id]) /\
  (forall status body headers,
      reply = wrote status body headers ->
      exists id movie,
        readIDParam = Ok id /\ get id st = Ok movie /\
        status = 200 /\ body = movie_envelope movie /\ headers = ∅).
Proof.
  clear insert del validate. unfold showMovieHandler, send.
  destruct readIDParam as [id|e]; cbn.
  - destruct (Z.ltb_spec id 1) as [Hlt|Hge]; cbn.
    + split; [reflexivity|]. split; [split; eauto|].
      split; [tauto|]. split; [congruence|]. discriminate.
    + destruct (get id st) as [movie|e] eqn:Hget; cbn.
      * destruct (write 200 (movie_envelope movie) ∅) eqn:Hw; cbn.
        all: split; [reflexivity|].
        all: split; [split; [discriminate|];
                     intros [[e' [=]]|[id' [[= <-] ?]]]; lia|].
        all: split; [split; discriminate|].
        all: split; [intros _; eauto|].
        all: intros status body headers [=]; subst; eauto 10.
      * split; [reflexivity|].
        split; [split;
                [destruct (errors_Is e ErrRecordNotFound); discriminate|];
                intros [[e' [=]]|[id' [[= <-] ?]]]; lia|].
        split; [split; [discriminate|];
                destruct (errors_Is e ErrRecordNotFound); discriminate|].
        split; [intros _; eauto|].
        intros status body headers.
        destruct (errors_Is e ErrRecordNotFound); discriminate.
  - split; [reflexivity|]. split; [split; eauto|].
    split; [tauto|]. split; [congruence|]. discriminate.
Qed.

(** X10: the create handler calls [Insert] only on a record that passed the
    validation, and then exactly once; the record it hands to the store is
    built from the four body fields alone, with id and version 0.  When
    the body cannot be decoded or the record is invalid the database is
    untouched, and an invalid record is answered with its field errors. *)
Theorem createMovieHandler_inserts_only_valid
    (readJSON : result create_input.t) (st : Store) :
  let reply := (createMovieHandler insert validate write readJSON st).1.1 in
  let st' := (createMovieHandler insert validate write readJSON st).1.2 in
  let ops := (createMovieHandler insert validate write readJSON st).2 in
  (ops = [] /\ st' = st /\
   ((exists e, readJSON = Err e /\ reply = helper (badRequestResponse e)) \/
    (exists i, readJSON = Ok i /\
       validator.Valid (validate validator.New (new_movie i)) = false /\
       reply = helper (failedValidationResponse
                         (validator.Errors (validate validator.New (new_movie i))))))) \/
  (exists i,
      readJSON = Ok i /\
      validator.Valid (validate validator.New (new_movie i)) = true /\
      ops = [OpInsert (new_movie i)] /\
      ID (new_movie i) = 0 /\ Version (new_movie i) = 0 /\
      st' = (insert (new_movie i) st).2).
Proof.
  clear get del. unfold createMovieHandler.
  destruct readJSON as [i|e]; cbn; [|left; eauto 10].
  destruct (validator.Valid (validate validator.New (new_movie i))) eqn:Hv; cbn.
  - right. exists i.
    destruct (insert (new_movie i) st) as [[err inserted] st1]. cbn.
    destruct err; cbn; auto 10.
  - left. eauto 10.
Qed.

(** X11: whenever the create handler writes a body, the status is 201, the
    body is the record as [Insert] left it, and the only header is a
    Location naming the id the store assigned, and no other id. *)
Theorem createMovieHandler_location
    (readJSON : result create_input.t) (st st' : Store)
    (status : Z) (body : rest.envelope)
    (headers : gmap string (list string)) (ops : list op) :
  createMovieHandler insert validate write readJSON st
    = (wrote status body headers, st', ops) ->
  exists i inserted,
    readJSON = Ok i /\
    insert (new_movie i) st = (None, inserted, st') /\
    status = 201 /\ body = movie_envelope inserted /\
    headers = {[ "Location" := ["/v1/movies/" +:+ pretty (ID inserted)] ]} /\
    (forall other : Z,
        headers !! "Location" = Some ["/v1/movies/" +:+ pretty other] ->
        other = ID inserted).
Proof.
  clear get del. unfold createMovieHandler, send.
  destruct readJSON as [i|e]; cbn; [|discriminate].
  destruct (validator.Valid (validate validator.New (new_movie i))); cbn;
    [|discriminate].
  destruct (insert (new_movie i) st) as [[err inserted] st0] eqn:Hins. cbn.
  destruct err; cbn; [discriminate|].
  destruct (write 201 (movie_envelope inserted) _); cbn; [discriminate|].
  intros [= <- <- <- <- <-]. exists i, inserted.
  do 5 (split; [reflexivity || exact Hins|]).
  intros other Heq. rewrite lookup_insert_eq in Heq.
  injection Heq as Heq.
  apply (inj (String.app "")) in Heq. now apply (inj pretty) in Heq.
Qed.

(** X12: the delete handler answers 404 without a store call when the id
    cannot be read; for every readable id, below 1 included, it makes
    exactly one [Delete] call.  It answers 404 exactly when the store
    reports a missing record, and a 200 answer means [Delete] returned no
    error. *)
Theorem deleteMovieHandler_answers (readIDParam : result Z) (st : Store) :
  let reply := (deleteMovieHandler del write readIDParam st).1.1 in
  let st' := (deleteMovieHandler del write readIDParam st).1.2 in
  let ops := (deleteMovieHandler del write readIDParam st).2 in
  match readIDParam with
  | Err _ => reply = helper notFoundResponse /\ st' = st /\ ops = []
  | Ok id =>
      ops = [OpDelete id] /\ st' = (del id st).2 /\
      (reply = helper notFoundResponse <-> (del id st).1 = Some ErrRecordNotFound) /\
      (reply_status reply = 200 <->
       (del id st).1 = None /\
       reply = wrote 200 (message_envelope "movie successfully deleted") ∅)
  end.
Proof.
  clear get insert validate. unfold deleteMovieHandler, send.
  destruct readIDParam as [id|e]; cbn; [|auto].
  destruct (del id st) as [err st1]. cbn.
  destruct err as [err|]; cbn.
  - split; [reflexivity|]. split; [reflexivity|].
    unfold errors_Is. case_bool_decide as Herr; cbn.
    + subst err. split; [tauto|]. split; [discriminate|intros [[=] _]].
    + split; [split; [discriminate|congruence]|].
      split; [discriminate|intros [[=] _]].
  - split; [reflexivity|]. split; [reflexivity|].
    destruct (write 200 (message_envelope "movie successfully deleted") ∅); cbn.
    + split; [split; discriminate|]. split; [discriminate|intros [_ [=]]].
    + split; [split; discriminate|]. tauto.
Qed.

End collaborators.

Lemma showMovieHandler_answers_witness :
  let out := showMovieHandler Get (fun _ _ _ => None) (Ok 1) scenario.catalogue in
  exists id, Ok 1 = Ok id /\ 1 <= id /\ out.2 = [OpGet id].
Proof.
  intros out.
  destruct (showMovieHandler_answers Get (fun _ _ _ => None) (Ok 1)
              scenario.catalogue) as (_ & _ & _ & H & _).
  apply H. discriminate.
Defined.

Lemma createMovieHandler_location_witness :
  let assign (id : Z) :=
    fun (m : Movie) (db : gmap Z Movie) =>
      let stored := {| ID := id; CreatedAt := 0; Title := Title m; Year := Year m;
                       Runtime := Runtime m; Genres := Genres m; Version := 1 |} in
      (@None error, stored, <[id := stored]> db) in
  let moana := {| ID := 42; CreatedAt := 0; Title := "Moana"; Year := 2016;
                  Runtime := 107; Genres := Some ["animation"; "adventure"];
                  Version := 1 |} in
  let body := Ok {| create_input.Title := "Moana"; create_input.Year := 2016;
                    create_input.Runtime := 107;
                    create_input.Genres := Some ["animation"; "adventure"] |} in
  let headers : gmap string (list string) :=
    {[ "Location" := ["/v1/movies/42"] ]} in
  exists i inserted,
    body = Ok i /\
    assign 42 (new_movie i) scenario.catalogue
      = (None, inserted, <[42 := moana]> scenario.catalogue) /\
    201 = 201 /\ movie_envelope moana = movie_envelope inserted /\
    headers = {[ "Location" := ["/v1/movies/" +:+ pretty (ID inserted)] ]} /\
    (forall other : Z,
        headers !! "Location" = Some ["/v1/movies/" +:+ pretty other] ->
        other = ID inserted).
Proof.
  intros assign moana body headers.
  apply (createMovieHandler_location (assign 42) (ValidateMovie 2024)
           (fun _ _ _ => None) body scenario.catalogue
           (<[42 := moana]> scenario.catalogue) 201 (movie_envelope moana)
           headers
           [OpInsert {| ID := 0; CreatedAt := 0; Title := "Moana"; Year := 2016;
                        Runtime := 107;
                        Genres := Some ["animation"; "adventure"];
                        Version := 0 |}]).
  vm_compute. reflexivity.
Defined.

End rest_facts.

(** ** The runtime encoding *)

Module runtime_facts.
Import runtime.

Lemma pretty_N_go_app (x : N) (s t : string) :
  pretty_N_go x s +:+ t = pretty_N_go x (s +:+ t).
Proof.
  revert s. induction (N.lt_wf_0 x) as [x _ IH]. intros s.
  destruct (decide (x = 0)%N) as [->|Hx]; [reflexivity|].
  rewrite (pretty_N_go_step x s), (pretty_N_go_step x (s +:+ t)) by lia.
  rewrite IH by (apply N.div_lt; lia). reflexivity.
Qed.

Lemma Quote_byte_digit (x : N) :
  Quote_byte (pretty_N_char x) = Some (String (pretty_N_char x) "").
Proof.
  unfold pretty_N_char. repeat case_match; reflexivity.
Qed.

(** Digits put in front of a text that needs no escape need none either. *)
Lemma Quote_bytes_pretty_N_go (x : N) (s : string) :
  Quote_bytes s = Some s ->
  Quote_bytes (pretty_N_go x s) = Some (pretty_N_go x s).
Proof.
  revert s. induction (N.lt_wf_0 x) as [x _ IH]. intros s Hs.
  destruct (decide (x = 0)%N) as [->|Hx]; [exact Hs|].
  rewrite pretty_N_go_step by lia.
  apply IH; [apply N.div_lt; lia|].
  cbn [Quote_bytes]. now rewrite Quote_byte_digit, Hs.
Qed.

Lemma Quote_bytes_Sprintf_mins (r : Z) :
  Quote_bytes (Sprintf_mins r) = Some (Sprintf_mins r).
Proof.
  assert (Hpos : forall p : positive,
             Quote_bytes (pretty p +:+ " mins") = Some (pretty p +:+ " mins")).
  { intros p. unfold pretty, pretty_positive, pretty, pretty_N.
    rewrite decide_False by discriminate.
    rewrite pretty_N_go_app. now apply Quote_bytes_pretty_N_go. }
  unfold Sprintf_mins. destruct r as [|p|p].
  - reflexivity.
  - apply Hpos.
  - change (pretty (Z.neg p) +:+ " mins")
      with (String "-" (pretty p +:+ " mins")).
    cbn [Quote_bytes]. rewrite Hpos. reflexivity.
Qed.

Lemma length_app_string (a b : string) :
  String.length (a +:+ b) = (String.length a + String.length b)%nat.
Proof. induction a as [|c a IH]; simpl; [reflexivity|]. now f_equal. Qed.

Lemma app_inv_tail_string (a b t : string) : a +:+ t = b +:+ t -> a = b.
Proof.
  revert b. induction a as [|c a IH]; intros [|d b] H.
  - reflexivity.
  - apply (f_equal String.length) in H.
    rewrite !length_app_string in H. simpl in H. lia.
  - apply (f_equal String.length) in H.
    rewrite !length_app_string in H. simpl in H. lia.
  - simpl in H. injection H as -> H. f_equal. now apply IH.
Qed.

(** X13: [MarshalJSON] succeeds on every runtime, and what it returns is the
    text ["<r> mins"] between two double quotes and nothing else: the
    decimal digits of [r] (with a '-' when negative) never need an escape.
    For 102 it is the ten bytes of ["102 mins"] with the quotes. *)
Theorem MarshalJSON_is_quoted_text (r : Z) :
  MarshalJSON r = Some (String dquote (Sprintf_mins r +:+ String dquote "")) /\
  MarshalJSON 102 =
    Some (String dquote ("102 mins" +:+ String dquote "")) /\
  MarshalJSON (-5) =
    Some (String dquote ("-5 mins" +:+ String dquote "")).
Proof.
  split; [|split; reflexivity].
  unfold MarshalJSON, Quote. now rewrite Quote_bytes_Sprintf_mins.
Qed.

(** X14: two runtimes with the same JSON encoding are equal: the encoding
    loses nothing. *)
Theorem MarshalJSON_inj (r1 r2 : Z) :
  MarshalJSON r1 = MarshalJSON r2 -> r1 = r2.
Proof.
  unfold MarshalJSON, Quote. rewrite !Quote_bytes_Sprintf_mins.
  intros [= H]. apply app_inv_tail_string in H.
  unfold Sprintf_mins in H. apply app_inv_tail_string in H.
  now apply (inj pretty) in H.
Qed.

Lemma MarshalJSON_inj_witness : 102 = 102.
Proof. apply (MarshalJSON_inj 102 102). reflexivity. Defined.

End runtime_facts.

(** ** The logger *)

Module jsonlog_facts.
Import jsonlog.

(** X15: [String] names exactly the three levels below [LevelOff], each with
    its own name; [LevelOff] and every other value (negative ones too) give
    the empty string. *)
Theorem Level_String_names (l l' : Z) :
  (Level_String l <> "" <-> LevelInfo <= l <= LevelFatal) /\
  (Level_String l = Level_String l' -> Level_String l <> "" -> l = l') /\
  Level_String LevelOff = "".
Proof.
  unfold Level_String, LevelInfo, LevelError, LevelFatal, LevelOff.
  split; [|split; [|reflexivity]].
  - destruct (Z.eqb_spec l 0); [split; [lia|discriminate]|].
    destruct (Z.eqb_spec l 1); [split; [lia|discriminate]|].
    destruct (Z.eqb_spec l 2); [split; [lia|discriminate]|].
    split; [congruence|lia].
  - destruct (Z.eqb_spec l 0), (Z.eqb_spec l 1), (Z.eqb_spec l 2),
      (Z.eqb_spec l' 0), (Z.eqb_spec l' 1), (Z.eqb_spec l' 2);
      subst; try discriminate; try congruence; try lia.
Qed.

Lemma Level_String_names_witness : LevelError = 1.
Proof.
  apply (proj1 (proj2 (Level_String_names LevelError 1)));
    [reflexivity | discriminate].
Defined.

(** X16: [print] reports an entry (1) exactly when the level is at least
    the logger's minimum, and 0 otherwise, never an error; so a level that
    is reported stays reported at every higher level.  A logger made with
    [LevelOff] reports none of the named levels and one made with
    [LevelInfo] reports them all. *)
Theorem print_threshold (l : Logger) (level higher : Z) (message : string)
    (properties : gmap string string) (sink : list string) :
  (print l level message properties = (1, None) <-> minLevel l <= level) /\
  (print l level message properties = (0, None) <-> level < minLevel l) /\
  (print l level message properties = (1, None) -> level <= higher ->
   print l higher message properties = (1, None)) /\
  (Level_String level <> "" ->
   print (New sink LevelOff) level message properties = (0, None) /\
   print (New sink LevelInfo) level message properties = (1, None)).
Proof.
  unfold print, New. cbn [minLevel].
  split; [|split; [|split]].
  - destruct (Z.ltb_spec level (minLevel l)); split;
      (discriminate || lia || reflexivity).
  - destruct (Z.ltb_spec level (minLevel l)); split;
      (discriminate || lia || reflexivity).
  - destruct (Z.ltb_spec level (minLevel l)); [discriminate|].
    intros _ Hle. destruct (Z.ltb_spec higher (minLevel l)); [lia|reflexivity].
  - unfold Level_String, LevelInfo, LevelError, LevelFatal, LevelOff.
    destruct (Z.eqb_spec level 0) as [->|]; [split; reflexivity|].
    destruct (Z.eqb_spec level 1) as [->|]; [split; reflexivity|].
    destruct (Z.eqb_spec level 2) as [->|]; [split; reflexivity|].
    congruence.
Qed.

Lemma print_threshold_witness :
  print (New [] LevelError) LevelFatal "boom" ∅ = (1, None) /\
  print (New [] LevelOff) LevelFatal "boom" ∅ = (0, None) /\
  print (New [] LevelInfo) LevelFatal "boom" ∅ = (1, None).
Proof.
  destruct (print_threshold (New [] LevelError) LevelError LevelFatal
              "boom" ∅ []) as (_ & _ & Hup & _).
  destruct (print_threshold (New [] LevelError) LevelFatal LevelFatal
              "boom" ∅ []) as (_ & _ & _ & Hnamed).
  split; [apply Hup; [reflexivity | unfold LevelError, LevelFatal; lia]|].
  apply Hnamed. discriminate.
Defined.

End jsonlog_facts.
